(** * WhatsApp group manager: the orchestration layer of [src/index.js]

    The file embeds the one source file of the repository: the
    [WhatsAppGroupManager] class (Express set-up, event wiring, [start],
    [stop]), the two signal handlers and the top-level script.

    Everything the file calls but does not define (the session client, Express
    and its middleware, the handler modules, the database initialiser, the QR
    printer, the process environment) is a field of a [World]: for every call
    the world says how it ends.  Theorems quantify over all worlds.

    Each callback is run to completion in one piece: an awaited promise is
    settled by the world at the point of the [await].  Interleavings of
    several callbacks that are pending at the same time are not modelled. *)

From Stdlib Require Import String Ascii List ZArith Bool Lia DecimalString.
Import ListNotations.
Open Scope string_scope.
Set Warnings "-register-all".

(** ** JavaScript values *)

Module Js.

(** The values that cross this layer: event payloads, thrown errors,
    environment strings, the port, JSON bodies.  [Num n] is the number the
    integer literal [n] denotes. *)
Inductive Value : Type :=
| Undefined
| Null
| Bool (b : bool)
| Num (n : Z)
| Str (s : string)
| Obj (fields : list (string * Value))
| Error (name message : string).

(** ToBoolean. *)
Definition truthy (v : Value) : bool :=
  match v with
  | Undefined | Null => false
  | Bool b => b
  | Num n => negb (n =? 0)%Z
  | Str s => negb (s =? "")
  | Obj _ | Error _ _ => true
  end.

(** [a || b]: the left operand when it is truthy, else the right one. *)
Definition or (a b : Value) : Value := if truthy a then a else b.

(** [s] without the zeros it ends with. *)
Fixpoint strip_zeros (s : string) : string :=
  match s with
  | EmptyString => EmptyString
  | String c rest =>
      let r := strip_zeros rest in
      if (r =? "") && Ascii.eqb c "0"%char then EmptyString else String c r
  end.

Definition decimal (a : Z) : string :=
  NilZero.string_of_uint (N.to_uint (Z.to_N a)).

(** The double nearest to the integer [a >= 0] (ties to the even mantissa):
    [a] itself below 2^53, else [a] rounded to 53 significant bits. *)
Definition to_double (a : Z) : Z :=
  if (a <? 2 ^ 53)%Z then a
  else
    let sh := (Z.log2 a - 52)%Z in
    let q := Z.shiftr a sh in
    let r := (a - Z.shiftl q sh)%Z in
    let half := Z.shiftl 1 (sh - 1) in
    let m :=
      if (r <? half)%Z then q
      else if (half <? r)%Z then (q + 1)%Z
      else if Z.even q then q else (q + 1)%Z in
    Z.shiftl m sh.

(** The integer with the fewest significant digits, [k] or more of them,
    that still reads back as the double [x] of [d] digits; of two such the
    one closer to [x]. *)
Fixpoint shortest (fuel : nat) (k x d : Z) : Z :=
  match fuel with
  | O => x
  | S f =>
      if (d <=? k)%Z then x
      else
        let p := (10 ^ (d - k))%Z in
        let lo := (x / p * p)%Z in
        let hi := (lo + p)%Z in
        let lo_ok := (to_double lo =? x)%Z in
        let hi_ok := (to_double hi =? x)%Z in
        if lo_ok && hi_ok then
          if (x - lo <? hi - x)%Z then lo
          else if (hi - x <? x - lo)%Z then hi
          else if Z.even (lo / p) then lo else hi
        else if lo_ok then lo
        else if hi_ok then hi
        else shortest f (k + 1)%Z x d
  end.

(** Number::toString for the number an integer literal [n] denotes: the
    double nearest to [n], printed with the fewest digits that identify it;
    in full up to 21 digits, with an exponent from 22 digits on ("1e+21",
    "1.5e+21"). *)
Definition number_to_string (n : Z) : string :=
  let a := Z.abs n in
  let body :=
    if (a <? 2 ^ 53)%Z then decimal a
    else
      let x := to_double a in
      if (2 ^ 1024 <=? x)%Z then "Infinity"
      else
        let digits :=
          decimal (shortest 17 1 x (Z.of_nat (String.length (decimal x)))) in
        let len := String.length digits in
        if (len <=? 21)%nat then digits
        else
          match strip_zeros digits with
          | EmptyString => digits
          | String c EmptyString => String c EmptyString
          | String c rest => String c ("." ++ rest)
          end
          ++ "e+" ++ NilZero.string_of_uint (Nat.to_uint (len - 1))
  in
  if (n <? 0)%Z then "-" ++ body else body.

(** ToString, as a template literal applies it.  An error prints as its
    name, its message, or "name: message" when it has both. *)
Definition to_string (v : Value) : string :=
  match v with
  | Undefined => "undefined"
  | Null => "null"
  | Bool true => "true"
  | Bool false => "false"
  | Num n => number_to_string n
  | Str s => s
  | Obj _ => "[object Object]"
  | Error name message =>
      if name =? "" then message
      else if message =? "" then name
      else name ++ ": " ++ message
  end.

(** What [JSON.stringify] keeps of a value: a field whose value is
    [undefined] is left out, an error has no field to show. *)
Fixpoint json (v : Value) : Value :=
  match v with
  | Obj fields =>
      Obj
        ((fix keep (fs : list (string * Value)) : list (string * Value) :=
            match fs with
            | [] => []
            | (k, Undefined) :: rest => keep rest
            | (k, x) :: rest => (k, json x) :: keep rest
            end) fields)
  | Error _ _ => Obj []
  | _ => v
  end.

Fixpoint assoc (k : string) (fields : list (string * Value)) : Value :=
  match fields with
  | [] => Undefined
  | (k', v) :: rest => if k' =? k then v else assoc k rest
  end.

(** Property read [v.k]: a TypeError on [undefined] and [null], the field
    of an object, [undefined] on anything else. *)
Definition get (v : Value) (k : string) : Value + Value :=
  match v with
  | Undefined =>
      inr (Error "TypeError"
             ("Cannot read properties of undefined (reading '" ++ k ++ "')"))
  | Null =>
      inr (Error "TypeError"
             ("Cannot read properties of null (reading '" ++ k ++ "')"))
  | Obj fields => inl (assoc k fields)
  | _ => inl Undefined
  end.

(** The names of the fields of an object, in order. *)
Definition keys (v : Value) : list string :=
  match v with
  | Obj fields => map fst fields
  | _ => []
  end.

End Js.

(** ** The process and its collaborators *)

(** A call that leaves this layer. *)
Inductive Call : Type :=
| CInitDatabase
| CListen (port : Js.Value)
| CClientInitialize
| CStartScheduledTasks
| CClientDestroy
| CHandleMessage (message : Js.Value)
| CHandleNewMember (notification : Js.Value)
| CHandleMemberLeave (notification : Js.Value)
| CQrGenerate (qr : Js.Value).

(** How a call that is awaited ends: its promise resolves, its promise
    rejects, or the function throws before it returns a promise.  The session
    client's [initialize] and [destroy], the handlers and [initDatabase]
    resolve or reject (section 6 of the specification). *)
Inductive Outcome : Type :=
| Resolves (v : Js.Value)
| Rejects (e : Js.Value)
| Throws (e : Js.Value).

(** How a call that is not awaited ends. *)
Inductive SyncOutcome : Type :=
| Returns (v : Js.Value)
| Raises (e : Js.Value).

(** The error an awaited call surfaces at its [await], if any. *)
Definition failure (o : Outcome) : option Js.Value :=
  match o with
  | Resolves _ => None
  | Rejects e | Throws e => Some e
  end.

Definition sync_failure (o : SyncOutcome) : option Js.Value :=
  match o with
  | Returns _ => None
  | Raises e => Some e
  end.

Inductive Level : Type := Info | Err.

(** One [console.log] or [console.error] call: the text it starts with and
    the values that follow it. *)
Record LogEntry : Type := mkLog {
  level : Level;
  text : string;
  args : list Js.Value
}.

Inductive ProcStatus : Type :=
| Running
| Exited (code : Z)          (* process.exit(code) *)
| Uncaught (e : Js.Value).   (* an exception nothing in this file catches *)

(** The instance of [WhatsAppGroupManager]; the process builds one. *)
Inductive Bot : Type := TheBot.

(** *** HTTP values *)

Inductive Method : Type := GET | HEAD | POST | PUT | DELETE | OPTIONS.

Record Request : Type := mkRequest {
  req_method : Method;
  req_path : string;
  req_headers : list (string * string);
  req_body : string
}.

Record Response : Type := mkResponse {
  statusCode : Z;
  res_headers : list (string * string);
  res_body : option Js.Value
}.

(** A middleware hands the request on ([next()]), ends the response, or
    fails ([next(err)] or a throw). *)
Inductive MwResult : Type :=
| Next (res : Response)
| End (res : Response)
| Fail (e : Js.Value).

Definition Middleware : Type := Request -> Response -> MwResult.

(** What Express does with a request no layer has answered: called with no
    error when the layers are exhausted, with the error when a layer
    failed. *)
Definition FinalHandler : Type :=
  option Js.Value -> Request -> Response -> Response.

(** The process state this layer can observe. *)
Record State : Type := mkState {
  status : ProcStatus;
  log : list LogEntry;
  calls : list Call;
  global_bot : option Bot;
  sent : list (Request * Response)
}.

(** The collaborators.  An answer may depend on the calls made so far.

    [app_listen] is the call [this.app.listen(port, callback)] as [start]
    sees it: it returns or it throws.  What the HTTP server reports after
    the call has returned is an event of its own: the listen callback
    ([Listening]) or an 'error' event of the server ([ServerError]).  A port
    that cannot be bound is reported that way, not by a throw.  The five
    middlewares are the values [setupExpress] registers; [finalhandler] is
    the handler [express()] builds the application with. *)
Record World : Type := mkWorld {
  env : string -> option string;                        (* process.env *)
  initDatabase : list Call -> Outcome;
  app_listen : list Call -> Js.Value -> SyncOutcome;
  client_initialize : list Call -> Outcome;
  client_destroy : list Call -> Outcome;
  client_info : list Call -> Js.Value;                  (* this.client.info *)
  startScheduledTasks : list Call -> SyncOutcome;
  handleMessage : list Call -> Js.Value -> Outcome;
  handleNewMember : list Call -> Js.Value -> Outcome;
  handleMemberLeave : list Call -> Js.Value -> Outcome;
  qrcode_generate : list Call -> Js.Value -> SyncOutcome;
  helmet : Middleware;
  cors : Middleware;
  express_json : Middleware;
  express_static : Middleware;
  dashboard : Middleware;
  finalhandler : FinalHandler
}.

(** ** The monad of callbacks *)

(** A callback returns, throws (for an [async] function: rejects), or ends
    the process. *)
Inductive Result (A : Type) : Type :=
| Val (a : A)
| Exn (e : Js.Value)
| Halt.
Arguments Val {A} a.
Arguments Exn {A} e.
Arguments Halt {A}.

Definition M (A : Type) : Type := State -> Result A * State.

Definition ret {A} (a : A) : M A := fun s => (Val a, s).

Definition bind {A B} (m : M A) (k : A -> M B) : M B :=
  fun s =>
    match m s with
    | (Val a, s') => k a s'
    | (Exn e, s') => (Exn e, s')
    | (Halt, s') => (Halt, s')
    end.

Declare Scope js_scope.
Delimit Scope js_scope with js.
Notation "x <- m ;; k" := (bind m (fun x => k))
  (at level 61, m at next level, right associativity) : js_scope.
Notation "m ;; k" := (bind m (fun _ => k))
  (at level 61, right associativity) : js_scope.
Local Open Scope js_scope.

Definition throw {A} (e : Js.Value) : M A := fun s => (Exn e, s).

(** [try { body } catch (error) { handler }].  A [process.exit] inside the
    body is not an exception. *)
Definition try_catch {A} (body : M A) (handler : Js.Value -> M A) : M A :=
  fun s =>
    match body s with
    | (Exn e, s') => handler e s'
    | r => r
    end.

Definition set_status (st : ProcStatus) (s : State) : State :=
  mkState st (log s) (calls s) (global_bot s) (sent s).

Definition add_log (l : LogEntry) (s : State) : State :=
  mkState (status s) (log s ++ [l]) (calls s) (global_bot s) (sent s).

Definition add_call (c : Call) (s : State) : State :=
  mkState (status s) (log s) (calls s ++ [c]) (global_bot s) (sent s).

Definition set_global_bot (b : Bot) (s : State) : State :=
  mkState (status s) (log s) (calls s) (Some b) (sent s).

Definition add_sent (r : Request * Response) (s : State) : State :=
  mkState (status s) (log s) (calls s) (global_bot s) (sent s ++ [r]).

Definition console_log (t : string) (a : list Js.Value) : M unit :=
  fun s => (Val tt, add_log (mkLog Info t a) s).

Definition console_error (t : string) (a : list Js.Value) : M unit :=
  fun s => (Val tt, add_log (mkLog Err t a) s).

Definition process_exit {A} (code : Z) : M A :=
  fun s => (Halt, set_status (Exited code) s).

(** [await f(args)]: the call is made, then its outcome is observed. *)
Definition await (c : Call) (o : list Call -> Outcome) : M Js.Value :=
  fun s =>
    match o (calls s) with
    | Resolves v => (Val v, add_call c s)
    | Rejects e | Throws e => (Exn e, add_call c s)
    end.

(** [f(args)] without [await]. *)
Definition call (c : Call) (o : list Call -> SyncOutcome) : M Js.Value :=
  fun s =>
    match o (calls s) with
    | Returns v => (Val v, add_call c s)
    | Raises e => (Exn e, add_call c s)
    end.

(** A property read that may throw. *)
Definition read (r : Js.Value + Js.Value) : M Js.Value :=
  match r with
  | inl v => ret v
  | inr e => throw e
  end.

Definition get_calls : M (list Call) := fun s => (Val (calls s), s).

Definition run_state {A} (m : M A) (s : State) : State := snd (m s).
Definition run_result {A} (m : M A) (s : State) : Result A := fst (m s).

(** ** Express, as far as [setupExpress] uses it *)

Inductive Layer : Type :=
| Use (mw : Middleware)                              (* app.use(mw) *)
| UseAt (mount : string) (mw : Middleware)           (* app.use(mount, mw) *)
| Route (m : Method) (path : string) (h : Middleware). (* app.get(path, h) *)

Definition method_eqb (a b : Method) : bool :=
  match a, b with
  | GET, GET | HEAD, HEAD | POST, POST | PUT, PUT
  | DELETE, DELETE | OPTIONS, OPTIONS => true
  | _, _ => false
  end.

(** Paths are matched without regard to the case of ASCII letters. *)
Definition lower_ascii (c : Ascii.ascii) : Ascii.ascii :=
  let n := Ascii.nat_of_ascii c in
  if ((65 <=? n) && (n <=? 90))%nat then Ascii.ascii_of_nat (n + 32) else c.

Fixpoint lower (s : string) : string :=
  match s with
  | EmptyString => EmptyString
  | String c rest => String (lower_ascii c) (lower rest)
  end.

(** A mount point covers its own path and everything below it. *)
Definition mounted_at (mount path : string) : bool :=
  (lower path =? lower mount) || String.prefix (lower mount ++ "/") (lower path).

(** [s] without the slash it may end with. *)
Fixpoint drop_last_slash (s : string) : string :=
  match s with
  | EmptyString => EmptyString
  | String c EmptyString => if Ascii.eqb c "/"%char then EmptyString else s
  | String c rest => String c (drop_last_slash rest)
  end.

(** A route covers its own path, with or without a closing slash. *)
Definition route_path (path asked : string) : bool :=
  drop_last_slash (lower asked) =? drop_last_slash (lower path).

(** A GET route also answers HEAD requests. *)
Definition route_method (m asked : Method) : bool :=
  method_eqb m asked || (method_eqb m GET && method_eqb asked HEAD).

Definition layer_matches (l : Layer) (req : Request) : bool :=
  match l with
  | Use _ => true
  | UseAt mount _ => mounted_at mount (req_path req)
  | Route m path _ =>
      route_method m (req_method req) && route_path path (req_path req)
  end.

Definition layer_handle (l : Layer) : Middleware :=
  match l with
  | Use mw | UseAt _ mw | Route _ _ mw => mw
  end.

(** A response starts with status 200 and nothing written. *)
Definition fresh_response : Response := mkResponse 200 [] None.

(** An application: the layers registered so far and the final handler it
    was built with. *)
Record App : Type := mkApp {
  stack : list Layer;
  final : FinalHandler
}.

Definition add_layer (app : App) (l : Layer) : App :=
  mkApp (stack app ++ [l]) (final app).

(** The layers in the order they were registered.  The first that matches
    and answers ends the request; when none is left, or one fails (no layer
    of this file handles errors), the final handler answers. *)
Fixpoint run_stack (fin : FinalHandler) (layers : list Layer)
  (req : Request) (res : Response) : Response :=
  match layers with
  | [] => fin None req res
  | l :: rest =>
      if layer_matches l req then
        match layer_handle l req res with
        | Next res' => run_stack fin rest req res'
        | End res' => res'
        | Fail e => fin (Some e) req res
        end
      else run_stack fin rest req res
  end.

Definition run_layers (app : App) (req : Request) (res : Response) : Response :=
  run_stack (final app) (stack app) req res.

Definition has_header (name : string) (res : Response) : bool :=
  existsb (fun h => lower (fst h) =? lower name) (res_headers res).

(** [res.json(obj)]: the body is what [JSON.stringify] keeps of [obj], the
    content type is set unless one is there, the status code is left as it
    is. *)
Definition res_json (res : Response) (obj : Js.Value) : Response :=
  mkResponse (statusCode res)
    (if has_header "Content-Type" res then res_headers res
     else res_headers res ++ [("Content-Type", "application/json; charset=utf-8")])
    (Some (Js.json obj)).

(** ** The class [WhatsAppGroupManager] *)

Inductive Sig : Type := SIGINT | SIGTERM.

Inductive Event : Type :=
| ClientEvent (name : string) (payload : Js.Value)   (* this.client emits *)
| Signal (sig : Sig)
| Listening                                          (* the listen callback *)
| ServerError (e : Js.Value)          (* the HTTP server emits 'error' *)
| HttpRequest (req : Request).

Section Program.

Variable w : World.

Definition process_env (name : string) : Js.Value :=
  match env w name with
  | Some v => Js.Str v
  | None => Js.Undefined
  end.

(** *** setupExpress *)

Definition root_body : Js.Value :=
  Js.Obj [ ("status", Js.Str "WhatsApp Group Manager Bot is running");
           ("version", Js.Str "1.0.0");
           ("dashboard", Js.Str "/dashboard") ].

Definition get_root : Middleware :=
  fun req res => End (res_json res root_body).

(** [this.app = express()], line 39. *)
Definition express : App := mkApp [] (finalhandler w).

(** The application after the six registrations of [setupExpress]. *)
Definition setupExpress : App :=
  fold_left add_layer
    [ Use (helmet w);
      Use (cors w);
      Use (express_json w);
      Use (express_static w);
      UseAt "/dashboard" (dashboard w);
      Route GET "/" get_root ]
    express.

(** *** setupEventHandlers *)

Definition on_qr (qr : Js.Value) : M unit :=
  console_log "QR Code received, scan with your WhatsApp:" [] ;;
  _ <- call (CQrGenerate qr) (fun h => qrcode_generate w h qr) ;;
  ret tt.

Definition on_ready (_ : Js.Value) : M unit :=
  console_log "✅ WhatsApp Group Manager Bot is ready!" [] ;;
  console_log
    ("🤖 Bot Name: "
       ++ Js.to_string (Js.or (process_env "BOT_NAME") (Js.Str "GroupManager")))
    [] ;;
  h <- get_calls ;;
  wid <- read (Js.get (client_info w h) "wid") ;;
  user <- read (Js.get wid "user") ;;
  console_log ("📱 Connected as: " ++ Js.to_string user) [].

Definition on_authenticated (_ : Js.Value) : M unit :=
  console_log "🔐 Authentication successful!" [].

Definition on_auth_failure (msg : Js.Value) : M unit :=
  console_error "❌ Authentication failed:" [msg].

Definition on_disconnected (reason : Js.Value) : M unit :=
  console_log "📱 Client was logged out:" [reason].

Definition on_message (message : Js.Value) : M unit :=
  try_catch
    (_ <- await (CHandleMessage message) (fun h => handleMessage w h message) ;;
     ret tt)
    (fun error => console_error "Error handling message:" [error]).

Definition on_group_join (notification : Js.Value) : M unit :=
  try_catch
    (_ <- await (CHandleNewMember notification)
            (fun h => handleNewMember w h notification) ;;
     ret tt)
    (fun error => console_error "Error handling new member:" [error]).

Definition on_group_leave (notification : Js.Value) : M unit :=
  try_catch
    (_ <- await (CHandleMemberLeave notification)
            (fun h => handleMemberLeave w h notification) ;;
     ret tt)
    (fun error => console_error "Error handling member leave:" [error]).

(** The bindings, in the order [setupEventHandlers] makes them. *)
Definition setupEventHandlers : list (string * (Js.Value -> M unit)) :=
  [ ("qr", on_qr);
    ("ready", on_ready);
    ("authenticated", on_authenticated);
    ("auth_failure", on_auth_failure);
    ("disconnected", on_disconnected);
    ("message", on_message);
    ("group_join", on_group_join);
    ("group_leave", on_group_leave) ].

(** *** start and stop *)

Definition listen_port : Js.Value :=
  Js.or (process_env "WEB_PORT") (Js.Num 3000).

Definition on_listening (port : Js.Value) : M unit :=
  console_log
    ("🌐 Web dashboard running on http://localhost:" ++ Js.to_string port) [] ;;
  console_log
    ("📊 Admin dashboard: http://localhost:" ++ Js.to_string port
       ++ "/dashboard") [].

Definition start : M unit :=
  try_catch
    (_ <- await CInitDatabase (initDatabase w) ;;
     console_log "📊 Database initialized" [] ;;
     let port := listen_port in
     _ <- call (CListen port) (fun h => app_listen w h port) ;;
     _ <- await CClientInitialize (client_initialize w) ;;
     _ <- call CStartScheduledTasks (startScheduledTasks w) ;;
     ret tt)
    (fun error =>
       console_error "Failed to start bot:" [error] ;;
       process_exit 1).

Definition stop : M unit :=
  try_catch
    (_ <- await CClientDestroy (client_destroy w) ;;
     console_log "🛑 Bot stopped gracefully" [])
    (fun error => console_error "Error stopping bot:" [error]).

(** ** The top-level script *)

Definition newline : string := String (Ascii.ascii_of_nat 10) "".

Definition get_global_bot : M (option Bot) :=
  fun s => (Val (global_bot s), s).

Definition on_SIGINT : M unit :=
  console_log (newline ++ "🛑 Shutting down bot...") [] ;;
  b <- get_global_bot ;;
  (match b with
   | Some _ => stop
   | None => ret tt
   end) ;;
  process_exit 0.

Definition on_SIGTERM : M unit :=
  console_log (newline ++ "🛑 Shutting down bot...") [] ;;
  b <- get_global_bot ;;
  (match b with
   | Some _ => stop
   | None => ret tt
   end) ;;
  process_exit 0.

Definition signal_handler (sig : Sig) : M unit :=
  match sig with
  | SIGINT => on_SIGINT
  | SIGTERM => on_SIGTERM
  end.

(** Lines 165 to 167: build the bot, publish it as [global.bot], start it.
    The two [process.on] registrations above them are [signal_handler].
    [.catch(console.error)] logs the error alone, with no text before it. *)
Definition main : M unit :=
  let bot := TheBot in
  (fun s => (Val tt, set_global_bot bot s)) ;;
  try_catch start (fun error => console_error "" [error]).

(** The state the script starts from: nothing logged, nothing called,
    [global.bot] not assigned. *)
Definition init_state : State := mkState Running [] [] None [].

Definition boot : State := run_state main init_state.

(** ** Events *)

(** [this.client.emit(name, payload)]: the listeners bound to [name], in the
    order they were bound. *)
Fixpoint run_listeners (ls : list (string * (Js.Value -> M unit)))
  (name : string) (payload : Js.Value) : M unit :=
  match ls with
  | [] => ret tt
  | (n, cb) :: rest =>
      if n =? name
      then cb payload ;; run_listeners rest name payload
      else run_listeners rest name payload
  end.

Definition has_listener (name : string) : bool :=
  existsb (fun l => fst l =? name) setupEventHandlers.

(** What [emit] throws for an 'error' event nobody listens to: the payload
    when it is an error, else an error that carries it (its code and its
    context; its message, which prints the payload, is left out). *)
Definition unhandled_error (payload : Js.Value) : Js.Value :=
  match payload with
  | Js.Error _ _ => payload
  | _ => Js.Obj [("code", Js.Str "ERR_UNHANDLED_ERROR"); ("context", payload)]
  end.

(** [this.client.emit(name, payload)].  With no listener bound to [name]
    nothing happens, except for 'error', which is thrown. *)
Definition emit (name : string) (payload : Js.Value) : M unit :=
  if has_listener name then run_listeners setupEventHandlers name payload
  else if name =? "error" then throw (unhandled_error payload)
  else ret tt.

Definition serve (req : Request) : M unit :=
  fun s =>
    (Val tt, add_sent (req, run_layers setupExpress req fresh_response) s).

Definition handle_event (ev : Event) : M unit :=
  match ev with
  | ClientEvent name payload => emit name payload
  | Signal sig => signal_handler sig
  | Listening => on_listening listen_port
  | ServerError e => throw e      (* no 'error' listener on the server *)
  | HttpRequest req => serve req
  end.

(** One turn of the event loop.  A process that has ended handles nothing;
    an exception that leaves the callback is uncaught. *)
Definition deliver (ev : Event) (s : State) : State :=
  match status s with
  | Running =>
      match handle_event ev s with
      | (Exn e, s') => set_status (Uncaught e) s'
      | (_, s') => s'
      end
  | _ => s
  end.

Definition run_events (evs : list Event) (s : State) : State :=
  fold_left (fun s ev => deliver ev s) evs s.

End Program.

(** * Vocabulary of the properties *)

Local Open Scope list_scope.

(** The external calls of a complete start-up, in order. *)
Definition startup_steps (w : World) : list Call :=
  [CInitDatabase; CListen (listen_port w); CClientInitialize;
   CStartScheduledTasks].

(** The calls a computation adds to the ones made before it. *)
Definition made_by {A} (m : M A) (s : State) : list Call :=
  skipn (length (calls s)) (calls (run_state m s)).

(** The three steps of the start-up sequence that the specification names. *)
Inductive StartupStep : Type := DatabaseInit | HttpBind | ClientInit.

(** [step] is the first step of [start] that fails from state [s], with [e]. *)
Definition step_fails (w : World) (s : State) (step : StartupStep)
  (e : Js.Value) : Prop :=
  match step with
  | DatabaseInit =>
      failure (initDatabase w (calls s)) = Some e
  | HttpBind =>
      failure (initDatabase w (calls s)) = None /\
      sync_failure (app_listen w (calls s ++ [CInitDatabase]) (listen_port w))
        = Some e
  | ClientInit =>
      failure (initDatabase w (calls s)) = None /\
      sync_failure (app_listen w (calls s ++ [CInitDatabase]) (listen_port w))
        = None /\
      failure
        (client_initialize w
           (calls s ++ [CInitDatabase; CListen (listen_port w)])) = Some e
  end.

Definition database_initialized : LogEntry :=
  mkLog Info "📊 Database initialized" [].

Definition failed_to_start (e : Js.Value) : LogEntry :=
  mkLog Err "Failed to start bot:" [e].

(** The claim on the port as the specification words it: 3000 when the
    variable is absent, the configured value whenever it is set. *)
Definition port_is_default_or_configured (w : World) : Prop :=
  (env w "WEB_PORT" = None -> listen_port w = Js.Num 3000) /\
  (forall v, env w "WEB_PORT" = Some v -> listen_port w = Js.Str v).

(** The three inbound events. *)
Inductive Inbound : Type := Message | GroupJoin | GroupLeave.

Definition inbound_name (k : Inbound) : string :=
  match k with
  | Message => "message"
  | GroupJoin => "group_join"
  | GroupLeave => "group_leave"
  end.

Definition inbound_event (ev : Inbound * Js.Value) : Event :=
  ClientEvent (inbound_name (fst ev)) (snd ev).

(** The handler call an inbound event leads to. *)
Definition inbound_call (ev : Inbound * Js.Value) : Call :=
  match fst ev with
  | Message => CHandleMessage (snd ev)
  | GroupJoin => CHandleNewMember (snd ev)
  | GroupLeave => CHandleMemberLeave (snd ev)
  end.

(** How the external handler answers it, after the calls [h]. *)
Definition inbound_outcome (w : World) (h : list Call)
  (ev : Inbound * Js.Value) : Outcome :=
  match fst ev with
  | Message => handleMessage w h (snd ev)
  | GroupJoin => handleNewMember w h (snd ev)
  | GroupLeave => handleMemberLeave w h (snd ev)
  end.

(** The line the event's [catch] block logs. *)
Definition inbound_error (k : Inbound) (e : Js.Value) : LogEntry :=
  mkLog Err
    match k with
    | Message => "Error handling message:"
    | GroupJoin => "Error handling new member:"
    | GroupLeave => "Error handling member leave:"
    end
    [e].

(** The events [setupEventHandlers] binds, in order. *)
Definition bound_events (w : World) : list string :=
  map fst (setupEventHandlers w).

(** The connection-state notifications among them. *)
Definition lifecycle_events : list string :=
  ["qr"; "ready"; "authenticated"; "auth_failure"; "disconnected"].

(** The callback bound to [name] logs exactly one line and returns normally,
    for every payload and from every state. *)
Definition logs_once_and_returns (w : World) (name : string) : Prop :=
  forall (payload : Js.Value) (s : State),
    run_result (emit w name payload) s = Val tt /\
    exists l, log (run_state (emit w name payload) s) = log s ++ [l].

Definition qr_received : LogEntry :=
  mkLog Info "QR Code received, scan with your WhatsApp:" [].

Definition ready_lines (w : World) (user : Js.Value) : list LogEntry :=
  [ mkLog Info "✅ WhatsApp Group Manager Bot is ready!" [];
    mkLog Info
      ("🤖 Bot Name: "
         ++ Js.to_string
              (Js.or (process_env w "BOT_NAME") (Js.Str "GroupManager")))%string
      [];
    mkLog Info ("📱 Connected as: " ++ Js.to_string user)%string [] ].

(** A computation that leaves [global.bot] as it found it. *)
Definition keeps_bot {A} (m : M A) : Prop :=
  forall s, global_bot (snd (m s)) = global_bot s.

Definition shutting_down : LogEntry :=
  mkLog Info (newline ++ "🛑 Shutting down bot...")%string [].

Definition stopped_gracefully : LogEntry :=
  mkLog Info "🛑 Bot stopped gracefully" [].

Definition error_stopping (e : Js.Value) : LogEntry :=
  mkLog Err "Error stopping bot:" [e].


(** A middleware that hands [req] on and leaves the status code alone. *)
Definition hands_on (mw : Middleware) (req : Request) : Prop :=
  forall res, exists res',
    mw req res = Next res' /\ statusCode res' = statusCode res.

(** *** Vocabulary of the further properties *)

(** The first three steps of [start] succeed from [s]. *)
Definition first_three_succeed (w : World) (s : State) : Prop :=
  failure (initDatabase w (calls s)) = None /\
  sync_failure (app_listen w (calls s ++ [CInitDatabase]) (listen_port w))
    = None /\
  failure
    (client_initialize w (calls s ++ [CInitDatabase; CListen (listen_port w)]))
    = None.

(** How [startScheduledTasks] ends when [start] reaches it from [s]. *)
Definition tasks_outcome (w : World) (s : State) : SyncOutcome :=
  startScheduledTasks w
    (calls s ++ [CInitDatabase; CListen (listen_port w); CClientInitialize]).

(** Every start-up collaborator succeeds, whenever it is called. *)
Definition startup_always_succeeds (w : World) : Prop :=
  (forall h, failure (initDatabase w h) = None) /\
  (forall h p, sync_failure (app_listen w h p) = None) /\
  (forall h, failure (client_initialize w h) = None) /\
  (forall h, sync_failure (startScheduledTasks w h) = None).

(** [process.env.BOT_NAME || "GroupManager"], as the ready callback prints
    it. *)
Definition bot_name (w : World) : Js.Value :=
  Js.or (process_env w "BOT_NAME") (Js.Str "GroupManager").

Definition bot_name_line (w : World) : LogEntry :=
  mkLog Info ("🤖 Bot Name: " ++ Js.to_string (bot_name w))%string [].



(** A callback that returns normally and leaves the process status alone. *)
Definition quiet (m : M unit) : Prop :=
  forall s, fst (m s) = Val tt /\ status (snd (m s)) = status s.

(** A process that has ended: it exited or an exception went uncaught. *)
Definition ended (s : State) : Prop := status s <> Running.

(** A computation that never calls [process.exit]: it leaves the process
    status as it found it, also when it throws. *)
Definition keeps_status {A} (m : M A) : Prop :=
  forall s, status (snd (m s)) = status s.

(** The request is for the path the status route serves, with a method the
    route answers. *)
Definition asks_root (req : Request) : bool :=
  route_method GET (req_method req) && route_path "/" (req_path req).

(** * Sample worlds *)

Definition pass : Middleware := fun _ res => Next res.

(** A final handler that answers 404 when no layer took the request and 500
    when one failed, with a page of its own. *)
Definition plain_final : FinalHandler :=
  fun err _ res =>
    mkResponse (match err with None => 404 | Some _ => 500 end)
      (res_headers res) (Some (Js.Str "<pre>...</pre>")).

(** Every collaborator succeeds; no environment variable is set; the client
    knows the connected account. *)
Definition calm : World :=
  {| env := fun _ => None;
     initDatabase := fun _ => Resolves Js.Undefined;
     app_listen := fun _ _ => Returns Js.Undefined;
     client_initialize := fun _ => Resolves Js.Undefined;
     client_destroy := fun _ => Resolves Js.Undefined;
     client_info := fun _ =>
       Js.Obj [("wid", Js.Obj [("user", Js.Str "15551234567")])];
     startScheduledTasks := fun _ => Returns Js.Undefined;
     handleMessage := fun _ _ => Resolves Js.Undefined;
     handleNewMember := fun _ _ => Resolves Js.Undefined;
     handleMemberLeave := fun _ _ => Resolves Js.Undefined;
     qrcode_generate := fun _ _ => Returns Js.Undefined;
     helmet := pass;
     cors := pass;
     express_json := pass;
     express_static := pass;
     dashboard := pass;
     finalhandler := plain_final |}.

Definition with_env (e : string -> option string) (w : World) : World :=
  {| env := e;
     initDatabase := initDatabase w;
     app_listen := app_listen w;
     client_initialize := client_initialize w;
     client_destroy := client_destroy w;
     client_info := client_info w;
     startScheduledTasks := startScheduledTasks w;
     handleMessage := handleMessage w;
     handleNewMember := handleNewMember w;
     handleMemberLeave := handleMemberLeave w;
     qrcode_generate := qrcode_generate w;
     helmet := helmet w;
     cors := cors w;
     express_json := express_json w;
     express_static := express_static w;
     dashboard := dashboard w;
     finalhandler := finalhandler w |}.

Definition with_database (o : Outcome) (w : World) : World :=
  {| env := env w;
     initDatabase := fun _ => o;
     app_listen := app_listen w;
     client_initialize := client_initialize w;
     client_destroy := client_destroy w;
     client_info := client_info w;
     startScheduledTasks := startScheduledTasks w;
     handleMessage := handleMessage w;
     handleNewMember := handleNewMember w;
     handleMemberLeave := handleMemberLeave w;
     qrcode_generate := qrcode_generate w;
     helmet := helmet w;
     cors := cors w;
     express_json := express_json w;
     express_static := express_static w;
     dashboard := dashboard w;
     finalhandler := finalhandler w |}.

Definition with_listen (o : SyncOutcome) (w : World) : World :=
  {| env := env w;
     initDatabase := initDatabase w;
     app_listen := fun _ _ => o;
     client_initialize := client_initialize w;
     client_destroy := client_destroy w;
     client_info := client_info w;
     startScheduledTasks := startScheduledTasks w;
     handleMessage := handleMessage w;
     handleNewMember := handleNewMember w;
     handleMemberLeave := handleMemberLeave w;
     qrcode_generate := qrcode_generate w;
     helmet := helmet w;
     cors := cors w;
     express_json := express_json w;
     express_static := express_static w;
     dashboard := dashboard w;
     finalhandler := finalhandler w |}.

Definition with_initialize (o : Outcome) (w : World) : World :=
  {| env := env w;
     initDatabase := initDatabase w;
     app_listen := app_listen w;
     client_initialize := fun _ => o;
     client_destroy := client_destroy w;
     client_info := client_info w;
     startScheduledTasks := startScheduledTasks w;
     handleMessage := handleMessage w;
     handleNewMember := handleNewMember w;
     handleMemberLeave := handleMemberLeave w;
     qrcode_generate := qrcode_generate w;
     helmet := helmet w;
     cors := cors w;
     express_json := express_json w;
     express_static := express_static w;
     dashboard := dashboard w;
     finalhandler := finalhandler w |}.

Definition with_info (v : Js.Value) (w : World) : World :=
  {| env := env w;
     initDatabase := initDatabase w;
     app_listen := app_listen w;
     client_initialize := client_initialize w;
     client_destroy := client_destroy w;
     client_info := fun _ => v;
     startScheduledTasks := startScheduledTasks w;
     handleMessage := handleMessage w;
     handleNewMember := handleNewMember w;
     handleMemberLeave := handleMemberLeave w;
     qrcode_generate := qrcode_generate w;
     helmet := helmet w;
     cors := cors w;
     express_json := express_json w;
     express_static := express_static w;
     dashboard := dashboard w;
     finalhandler := finalhandler w |}.

Definition with_destroy (o : Outcome) (w : World) : World :=
  {| env := env w;
     initDatabase := initDatabase w;
     app_listen := app_listen w;
     client_initialize := client_initialize w;
     client_destroy := fun _ => o;
     client_info := client_info w;
     startScheduledTasks := startScheduledTasks w;
     handleMessage := handleMessage w;
     handleNewMember := handleNewMember w;
     handleMemberLeave := handleMemberLeave w;
     qrcode_generate := qrcode_generate w;
     helmet := helmet w;
     cors := cors w;
     express_json := express_json w;
     express_static := express_static w;
     dashboard := dashboard w;
     finalhandler := finalhandler w |}.

Definition with_message_handler (f : Js.Value -> Outcome) (w : World) : World :=
  {| env := env w;
     initDatabase := initDatabase w;
     app_listen := app_listen w;
     client_initialize := client_initialize w;
     client_destroy := client_destroy w;
     client_info := client_info w;
     startScheduledTasks := startScheduledTasks w;
     handleMessage := fun _ => f;
     handleNewMember := handleNewMember w;
     handleMemberLeave := handleMemberLeave w;
     qrcode_generate := qrcode_generate w;
     helmet := helmet w;
     cors := cors w;
     express_json := express_json w;
     express_static := express_static w;
     dashboard := dashboard w;
     finalhandler := finalhandler w |}.

Definition only (name value : string) : string -> option string :=
  fun n => if n =? name then Some value else None.

Definition connection_refused : Js.Value :=
  Js.Error "Error" "connect ECONNREFUSED".

Definition bad_port : Js.Value :=
  Js.Error "RangeError" "options.port should be >= 0 and < 65536".

Definition auth_timeout : Js.Value := Js.Error "Error" "auth timeout".

Definition boom : Js.Value := Js.Error "Error" "boom".

(** The message handler rejects on the text "bad" and resolves otherwise. *)
Definition picky (m : Js.Value) : Outcome :=
  match m with
  | Js.Str "bad" => Rejects boom
  | _ => Resolves Js.Undefined
  end.

Definition get_slash : Request := mkRequest GET "/" [] "".

Definition with_tasks (o : SyncOutcome) (w : World) : World :=
  {| env := env w;
     initDatabase := initDatabase w;
     app_listen := app_listen w;
     client_initialize := client_initialize w;
     client_destroy := client_destroy w;
     client_info := client_info w;
     startScheduledTasks := fun _ => o;
     handleMessage := handleMessage w;
     handleNewMember := handleNewMember w;
     handleMemberLeave := handleMemberLeave w;
     qrcode_generate := qrcode_generate w;
     helmet := helmet w;
     cors := cors w;
     express_json := express_json w;
     express_static := express_static w;
     dashboard := dashboard w;
     finalhandler := finalhandler w |}.

Definition with_static (mw : Middleware) (w : World) : World :=
  {| env := env w;
     initDatabase := initDatabase w;
     app_listen := app_listen w;
     client_initialize := client_initialize w;
     client_destroy := client_destroy w;
     client_info := client_info w;
     startScheduledTasks := startScheduledTasks w;
     handleMessage := handleMessage w;
     handleNewMember := handleNewMember w;
     handleMemberLeave := handleMemberLeave w;
     qrcode_generate := qrcode_generate w;
     helmet := helmet w;
     cors := cors w;
     express_json := express_json w;
     express_static := mw;
     dashboard := dashboard w;
     finalhandler := finalhandler w |}.

Definition with_dashboard (mw : Middleware) (w : World) : World :=
  {| env := env w;
     initDatabase := initDatabase w;
     app_listen := app_listen w;
     client_initialize := client_initialize w;
     client_destroy := client_destroy w;
     client_info := client_info w;
     startScheduledTasks := startScheduledTasks w;
     handleMessage := handleMessage w;
     handleNewMember := handleNewMember w;
     handleMemberLeave := handleMemberLeave w;
     qrcode_generate := qrcode_generate w;
     helmet := helmet w;
     cors := cors w;
     express_json := express_json w;
     express_static := express_static w;
     dashboard := mw;
     finalhandler := finalhandler w |}.

Definition cron_error : Js.Value := Js.Error "Error" "invalid cron pattern".


(** A static middleware that finds an index page for every request. *)
Definition index_page (res : Response) : Response :=
  mkResponse (statusCode res) (res_headers res) (Some (Js.Str "<html></html>")).

Definition serves_index : Middleware := fun _ res => End (index_page res).

(** A dashboard router that answers every request it is given. *)
Definition panel (res : Response) : Response :=
  mkResponse (statusCode res) (res_headers res) (Some (Js.Str "dashboard")).

Definition serves_panel : Middleware := fun _ res => End (panel res).

Definition get_dashboard_stats : Request :=
  mkRequest GET "/dashboard/stats" [] "".

Definition post_slash : Request := mkRequest POST "/" [] "{}".

(** * Properties *)

Local Open Scope js_scope.
Local Open Scope list_scope.

Ltac unfold_m :=
  unfold run_state, run_result, try_catch, bind, ret, throw, await, call, read,
    console_log, console_error, process_exit, get_calls, get_global_bot in *.

Section StopFacts.

Variable w : World.

Lemma stop_run (s : State) :
  stop w s =
    (Val tt,
     add_log
       match failure (client_destroy w (calls s)) with
       | None => stopped_gracefully
       | Some e => error_stopping e
       end
       (add_call CClientDestroy s)).
Proof.
  unfold stop. unfold_m.
  destruct (client_destroy w (calls s)); reflexivity.
Qed.

End StopFacts.

(** ** Start-up *)

Lemma calls_two (l : list Call) (a b : Call) :
  (l ++ [a]) ++ [b] = l ++ [a; b].
Proof. now rewrite <- app_assoc. Qed.

Lemma calls_three (l : list Call) (a b c : Call) :
  ((l ++ [a]) ++ [b]) ++ [c] = l ++ [a; b; c].
Proof. now rewrite <- !app_assoc. Qed.

Lemma calls_four (l : list Call) (a b c d : Call) :
  (((l ++ [a]) ++ [b]) ++ [c]) ++ [d] = l ++ [a; b; c; d].
Proof. now rewrite <- !app_assoc. Qed.

Lemma skipn_length_app {A} (l x : list A) : skipn (length l) (l ++ x) = x.
Proof. induction l; simpl; auto. Qed.

(** What [start] does, by the first step that fails. *)
Lemma start_run (w : World) (s : State) :
  start w s =
    let port := listen_port w in
    let s1 := add_call CInitDatabase s in
    match failure (initDatabase w (calls s)) with
    | Some e => (Halt, set_status (Exited 1) (add_log (failed_to_start e) s1))
    | None =>
        let s2 := add_call (CListen port) (add_log database_initialized s1) in
        match sync_failure (app_listen w (calls s ++ [CInitDatabase]) port) with
        | Some e =>
            (Halt, set_status (Exited 1) (add_log (failed_to_start e) s2))
        | None =>
            let s3 := add_call CClientInitialize s2 in
            match
              failure
                (client_initialize w (calls s ++ [CInitDatabase; CListen port]))
            with
            | Some e =>
                (Halt, set_status (Exited 1) (add_log (failed_to_start e) s3))
            | None =>
                let s4 := add_call CStartScheduledTasks s3 in
                match
                  sync_failure
                    (startScheduledTasks w
                       (calls s
                          ++ [CInitDatabase; CListen port; CClientInitialize]))
                with
                | Some e =>
                    (Halt,
                     set_status (Exited 1) (add_log (failed_to_start e) s4))
                | None => (Val tt, s4)
                end
            end
        end
    end.
Proof.
  unfold start. unfold_m. cbv zeta.
  destruct (initDatabase w (calls s)); simpl; try reflexivity.
  destruct (app_listen w (calls s ++ [CInitDatabase]) (listen_port w));
    simpl; try reflexivity.
  rewrite calls_two.
  destruct (client_initialize w _); simpl; try reflexivity.
  rewrite calls_three.
  destruct (startScheduledTasks w _); reflexivity.
Qed.

(** X1. The promise [start] returns never rejects: every exception of its
    body is caught, so the [.catch(console.error)] of the last line of the
    script has nothing to log. *)
Lemma start_never_throws (w : World) (s : State) :
  forall e, run_result (start w) s <> Exn e.
Proof.
  intros e. unfold run_result. rewrite start_run. cbv zeta.
  destruct (failure _); [discriminate|].
  destruct (sync_failure _); [discriminate|].
  destruct (failure _); [discriminate|].
  destruct (sync_failure _); discriminate.
Qed.

(** X16. A failure that [start] itself meets is fatal: when the database
    initialisation rejects or throws, when [app.listen] throws, or when the
    session client's initialisation rejects or throws, [start] logs the
    error with "Failed to start bot:" as the last line ever logged and ends
    the process with [process.exit(1)]. *)
Theorem startup_failure_is_fatal
  (w : World) (s : State) (step : StartupStep) (e : Js.Value) :
  step_fails w s step e ->
  run_result (start w) s = Halt /\
  status (run_state (start w) s) = Exited 1 /\
  exists before,
    log (run_state (start w) s) = log s ++ before ++ [failed_to_start e].
Proof.
  intros H. unfold run_result, run_state. rewrite start_run. cbv zeta.
  destruct step; simpl in H.
  - rewrite H. simpl. repeat split. now exists [].
  - destruct H as [Hdb Hl]. rewrite Hdb, Hl. simpl. repeat split.
    exists [database_initialized]. now rewrite <- app_assoc.
  - destruct H as [Hdb [Hl Hc]]. rewrite Hdb, Hl, Hc. simpl. repeat split.
    exists [database_initialized]. now rewrite <- app_assoc.
Qed.

(** C3. When database initialisation rejects (or throws), [start] exits with
    status 1 having made no other call than [initDatabase]: [app.listen] is
    never reached. *)
Theorem database_failure_never_binds
  (w : World) (s : State) (e : Js.Value) :
  failure (initDatabase w (calls s)) = Some e ->
  status (run_state (start w) s) = Exited 1 /\
  made_by (start w) s = [CInitDatabase] /\
  (forall port, ~ In (CListen port) (made_by (start w) s)) /\
  log (run_state (start w) s) = log s ++ [failed_to_start e].
Proof.
  intros H. unfold made_by, run_state. rewrite start_run. cbv zeta.
  rewrite H. simpl. rewrite skipn_length_app.
  repeat split; auto.
  intros port [Hc | []]. discriminate.
Qed.

(** The calls [start] adds, by the first step that fails. *)
Lemma made_by_start (w : World) (s : State) :
  made_by (start w) s =
    match failure (initDatabase w (calls s)) with
    | Some _ => firstn 1 (startup_steps w)
    | None =>
        match
          sync_failure
            (app_listen w (calls s ++ [CInitDatabase]) (listen_port w))
        with
        | Some _ => firstn 2 (startup_steps w)
        | None =>
            match
              failure
                (client_initialize w
                   (calls s ++ [CInitDatabase; CListen (listen_port w)]))
            with
            | Some _ => firstn 3 (startup_steps w)
            | None => startup_steps w
            end
        end
    end.
Proof.
  unfold made_by, run_state, startup_steps. rewrite start_run. cbv zeta.
  destruct (failure (initDatabase w (calls s))); simpl.
  { now rewrite skipn_length_app. }
  destruct (sync_failure (app_listen w _ _)); simpl.
  { now rewrite calls_two, skipn_length_app. }
  destruct (failure (client_initialize w _)); simpl.
  { now rewrite calls_three, skipn_length_app. }
  destruct (sync_failure (startScheduledTasks w _)); simpl;
    now rewrite calls_four, skipn_length_app.
Qed.

(** C8. The calls [start] makes are a prefix of database initialisation, HTTP
    listen, session-client initialisation, scheduled tasks, in this order;
    all four are made when the first three succeed; and the scheduled tasks
    are started only if the session client's initialisation has resolved
    (after the database resolved and [listen] returned). *)
Theorem start_order (w : World) (s : State) :
  (exists k, (1 <= k <= 4)%nat /\
             made_by (start w) s = firstn k (startup_steps w)) /\
  (failure (initDatabase w (calls s)) = None ->
   sync_failure (app_listen w (calls s ++ [CInitDatabase]) (listen_port w))
     = None ->
   failure
     (client_initialize w (calls s ++ [CInitDatabase; CListen (listen_port w)]))
     = None ->
   made_by (start w) s = startup_steps w) /\
  (In CStartScheduledTasks (made_by (start w) s) ->
   failure (initDatabase w (calls s)) = None /\
   sync_failure (app_listen w (calls s ++ [CInitDatabase]) (listen_port w))
     = None /\
   exists v,
     client_initialize w (calls s ++ [CInitDatabase; CListen (listen_port w)])
       = Resolves v).
Proof.
  rewrite made_by_start.
  destruct (failure (initDatabase w (calls s))) eqn:Hdb.
  { repeat split; try discriminate.
    - exists 1%nat. split; [lia | reflexivity].
    - destruct H as [H | []]; discriminate.
    - destruct H as [H | []]; discriminate.
    - destruct H as [H | []]; discriminate. }
  destruct (sync_failure (app_listen w _ _)) eqn:Hl.
  { repeat split; try discriminate.
    - exists 2%nat. split; [lia | reflexivity].
    - destruct H as [H | [H | []]]; discriminate.
    - destruct H as [H | [H | []]]; discriminate. }
  destruct (client_initialize w _) eqn:Hc; simpl failure; cbv iota.
  - repeat split; eauto.
    exists 4%nat. split; [lia | reflexivity].
  - repeat split; try discriminate.
    + exists 3%nat. split; [lia | reflexivity].
    + destruct H as [H | [H | [H | []]]]; discriminate.
  - repeat split; try discriminate.
    + exists 3%nat. split; [lia | reflexivity].
    + destruct H as [H | [H | [H | []]]]; discriminate.
Qed.

(** ** Runs in sample worlds *)

Example calm_start_calls :
  calls (run_state (start calm) init_state)
  = [CInitDatabase; CListen (Js.Num 3000); CClientInitialize;
     CStartScheduledTasks].
Proof. reflexivity. Qed.

Example configured_port_is_a_string :
  made_by (start (with_env (only "WEB_PORT" "8080") calm)) init_state
  = [CInitDatabase; CListen (Js.Str "8080"); CClientInitialize;
     CStartScheduledTasks].
Proof. reflexivity. Qed.

Example database_down :
  run_state (start (with_database (Rejects connection_refused) calm)) init_state
  = mkState (Exited 1) [failed_to_start connection_refused] [CInitDatabase]
      None [].
Proof. reflexivity. Qed.

Example listen_throws :
  run_state (start (with_listen (Raises bad_port) calm)) init_state
  = mkState (Exited 1) [database_initialized; failed_to_start bad_port]
      [CInitDatabase; CListen (Js.Num 3000)] None [].
Proof. reflexivity. Qed.

Example client_initialize_rejects :
  run_state (start (with_initialize (Rejects auth_timeout) calm)) init_state
  = mkState (Exited 1) [database_initialized; failed_to_start auth_timeout]
      [CInitDatabase; CListen (Js.Num 3000); CClientInitialize] None [].
Proof. reflexivity. Qed.

Lemma startup_failure_is_fatal_witness :
  step_fails (with_initialize (Rejects auth_timeout) calm) init_state
    ClientInit auth_timeout /\
  status
    (run_state (start (with_initialize (Rejects auth_timeout) calm))
       init_state) = Exited 1.
Proof.
  split; [repeat split|].
  apply (startup_failure_is_fatal
           (with_initialize (Rejects auth_timeout) calm) init_state
           ClientInit auth_timeout).
  repeat split.
Defined.

Lemma database_failure_never_binds_witness :
  failure
    (initDatabase (with_database (Rejects connection_refused) calm)
       (calls init_state)) = Some connection_refused /\
  made_by (start (with_database (Rejects connection_refused) calm)) init_state
  = [CInitDatabase].
Proof.
  split; [reflexivity|].
  apply (database_failure_never_binds
           (with_database (Rejects connection_refused) calm) init_state
           connection_refused).
  reflexivity.
Defined.

(** ** The listen port *)

(** C9, as stated, fails: a variable that is set to the empty string is
    falsy, so [||] falls through to 3000. *)
Lemma empty_port_falls_back :
  ~ port_is_default_or_configured (with_env (only "WEB_PORT" "") calm).
Proof.
  intros [_ H]. specialize (H ""%string eq_refl). discriminate H.
Qed.

(** C9, amended. The port is 3000 when [WEB_PORT] is absent or empty, and the
    configured string when it is set to a non-empty value; it is the port
    [start] hands to [app.listen] once the database is initialised. *)
Theorem listen_port_default_or_configured (w : World) :
  (env w "WEB_PORT" = None -> listen_port w = Js.Num 3000) /\
  (env w "WEB_PORT" = Some ""%string -> listen_port w = Js.Num 3000) /\
  (forall v, env w "WEB_PORT" = Some v -> v <> ""%string ->
             listen_port w = Js.Str v) /\
  (forall s, failure (initDatabase w (calls s)) = None ->
             exists rest,
               made_by (start w) s
               = CInitDatabase :: CListen (listen_port w) :: rest).
Proof.
  split; [|split; [|split]].
  - intros H. unfold listen_port, process_env. now rewrite H.
  - intros H. unfold listen_port, process_env. now rewrite H.
  - intros v H Hv. unfold listen_port, process_env, Js.or. rewrite H. simpl.
    destruct (String.eqb_spec v ""); [contradiction | reflexivity].
  - intros s Hdb. rewrite made_by_start, Hdb. unfold startup_steps.
    destruct (sync_failure _); [eexists; reflexivity|].
    destruct (failure (client_initialize w _)); eexists; reflexivity.
Qed.

(** ** stop *)

(** C5. [stop] always returns normally: it calls [client.destroy()] once,
    logs the failure when the teardown rejects or throws (the success line
    otherwise), rethrows nothing and leaves the process running. *)
Theorem stop_always_returns (w : World) (s : State) :
  run_result (stop w) s = Val tt /\
  status (run_state (stop w) s) = status s /\
  made_by (stop w) s = [CClientDestroy] /\
  (forall e, failure (client_destroy w (calls s)) = Some e ->
             log (run_state (stop w) s) = log s ++ [error_stopping e]) /\
  (failure (client_destroy w (calls s)) = None ->
   log (run_state (stop w) s) = log s ++ [stopped_gracefully]).
Proof.
  unfold made_by, run_result, run_state. rewrite stop_run. simpl.
  rewrite skipn_length_app.
  repeat split; auto.
  - intros e H. now rewrite H.
  - intros H. now rewrite H.
Qed.

(** ** Events of the session client *)

Lemma bind_ret_tt (m : M unit) (s : State) : (m ;; ret tt) s = m s.
Proof. unfold bind, ret. destruct (m s) as [[[]| |] s']; reflexivity. Qed.

Ltac find_listener :=
  unfold emit, has_listener, setupEventHandlers;
  cbn [existsb fst orb run_listeners String.eqb Ascii.eqb Bool.eqb];
  rewrite bind_ret_tt.

Section InboundFacts.

Variable w : World.

Lemma emit_inbound (ev : Inbound * Js.Value) (s : State) :
  handle_event w (inbound_event ev) s =
    (Val tt,
     match failure (inbound_outcome w (calls s) ev) with
     | None => add_call (inbound_call ev) s
     | Some e => add_log (inbound_error (fst ev) e) (add_call (inbound_call ev) s)
     end).
Proof.
  destruct ev as [[] p]; unfold inbound_event, inbound_outcome, inbound_call;
    simpl fst; simpl snd; simpl inbound_name; cbn [handle_event];
    find_listener.
  - unfold on_message. unfold_m.
    destruct (handleMessage w (calls s) p); reflexivity.
  - unfold on_group_join. unfold_m.
    destruct (handleNewMember w (calls s) p); reflexivity.
  - unfold on_group_leave. unfold_m.
    destruct (handleMemberLeave w (calls s) p); reflexivity.
Qed.

Lemma deliver_inbound (ev : Inbound * Js.Value) (s : State) :
  status s = Running ->
  deliver w (inbound_event ev) s =
    match failure (inbound_outcome w (calls s) ev) with
    | None => add_call (inbound_call ev) s
    | Some e => add_log (inbound_error (fst ev) e) (add_call (inbound_call ev) s)
    end.
Proof.
  intros Hrun. unfold deliver. rewrite Hrun, emit_inbound. reflexivity.
Qed.



Lemma run_events_cons (ev : Event) (evs : list Event) (s : State) :
  run_events w (ev :: evs) s = run_events w evs (deliver w ev s).
Proof. reflexivity. Qed.


End InboundFacts.


Example bad_message_then_good_ones :
  run_events (with_message_handler picky calm)
    [ClientEvent "message" (Js.Str "bad");
     ClientEvent "message" (Js.Str "hello");
     ClientEvent "group_join" (Js.Str "alice")]
    init_state
  = mkState Running
      [mkLog Err "Error handling message:" [boom]]
      [CHandleMessage (Js.Str "bad"); CHandleMessage (Js.Str "hello");
       CHandleNewMember (Js.Str "alice")]
      None [].
Proof. reflexivity. Qed.


(** ** Lifecycle events *)

Example calm_ready :
  log (run_state (emit calm "ready" Js.Undefined) init_state)
  = [ mkLog Info "✅ WhatsApp Group Manager Bot is ready!" [];
      mkLog Info "🤖 Bot Name: GroupManager" [];
      mkLog Info "📱 Connected as: 15551234567" [] ].
Proof. reflexivity. Qed.

(** C7, as stated, fails: the 'ready' callback logs three lines, not one. *)
Lemma ready_logs_three_lines : ~ logs_once_and_returns calm "ready".
Proof.
  intros H. destruct (H Js.Undefined init_state) as [_ [l Hl]].
  rewrite calm_ready in Hl. simpl in Hl. discriminate Hl.
Qed.

(** C7, amended. Five lifecycle events are bound: qr, ready, authenticated,
    auth_failure and disconnected.  The callbacks of authenticated,
    auth_failure and disconnected log exactly one line and return, whatever
    the payload.  The qr callback logs one line and hands the payload to
    [qrcode.generate]; it throws exactly when that call throws.  The ready
    callback logs three lines and returns when [client.info.wid.user] can be
    read. *)
Theorem lifecycle_callbacks (w : World) (payload : Js.Value) (s : State) :
  bound_events w
  = lifecycle_events ++ map inbound_name [Message; GroupJoin; GroupLeave] /\
  emit w "authenticated" payload s
  = (Val tt, add_log (mkLog Info "🔐 Authentication successful!" []) s) /\
  emit w "auth_failure" payload s
  = (Val tt, add_log (mkLog Err "❌ Authentication failed:" [payload]) s) /\
  emit w "disconnected" payload s
  = (Val tt, add_log (mkLog Info "📱 Client was logged out:" [payload]) s) /\
  emit w "qr" payload s
  = (match qrcode_generate w (calls s) payload with
     | Returns _ => Val tt
     | Raises e => Exn e
     end,
     add_call (CQrGenerate payload) (add_log qr_received s)) /\
  (forall wid user,
      Js.get (client_info w (calls s)) "wid" = inl wid ->
      Js.get wid "user" = inl user ->
      emit w "ready" payload s
      = (Val tt,
         mkState (status s) (log s ++ ready_lines w user) (calls s)
           (global_bot s) (sent s))).
Proof.
  split; [reflexivity|].
  split; [find_listener; reflexivity|].
  split; [find_listener; reflexivity|].
  split; [find_listener; reflexivity|].
  split.
  - find_listener. unfold on_qr. unfold_m. simpl.
    destruct (qrcode_generate w (calls s) payload); reflexivity.
  - intros wid user Hwid Huser. find_listener. unfold on_ready. unfold_m.
    simpl. rewrite Hwid. simpl. rewrite Huser. simpl.
    unfold add_log, ready_lines. simpl. rewrite <- !app_assoc. reflexivity.
Qed.

(** X3. Without [client.info] the ready callback throws a TypeError, the
    one the read of [info.wid] raises, after it has logged its first two
    lines (the ready banner and the bot name) and nothing else; nothing in
    the callback catches it. *)
Lemma ready_without_info (w : World) (payload : Js.Value) (s : State) :
  client_info w (calls s) = Js.Undefined ->
  exists message,
    emit w "ready" payload s
    = (Exn (Js.Error "TypeError" message),
       mkState (status s)
         (log s
            ++ [mkLog Info "✅ WhatsApp Group Manager Bot is ready!" [];
                bot_name_line w])
         (calls s) (global_bot s) (sent s)).
Proof.
  intros H. find_listener. unfold on_ready, bot_name_line, bot_name. unfold_m.
  simpl. rewrite H. simpl. eexists. unfold add_log. simpl.
  rewrite <- app_assoc. reflexivity.
Qed.

Lemma ready_without_info_witness :
  client_info (with_info Js.Undefined calm) (calls init_state) = Js.Undefined /\
  exists message,
    run_result (emit (with_info Js.Undefined calm) "ready" Js.Undefined)
      init_state = Exn (Js.Error "TypeError" message).
Proof.
  split; [reflexivity|].
  destruct (ready_without_info (with_info Js.Undefined calm) Js.Undefined
              init_state eq_refl) as [message He].
  exists message. unfold run_result. now rewrite He.
Defined.

Example ready_without_info_is_uncaught :
  status
    (deliver (with_info Js.Undefined calm) (ClientEvent "ready" Js.Undefined)
       init_state)
  = Uncaught
      (Js.Error "TypeError"
         "Cannot read properties of undefined (reading 'wid')").
Proof. reflexivity. Qed.

(** ** [global.bot] is assigned once and for all *)

Create HintDb frame.

Lemma keeps_bot_ret {A} (a : A) : keeps_bot (ret a).
Proof. intros s. reflexivity. Qed.

Lemma keeps_bot_throw {A} (e : Js.Value) : keeps_bot (@throw A e).
Proof. intros s. reflexivity. Qed.

Lemma keeps_bot_bind {A B} (m : M A) (k : A -> M B) :
  keeps_bot m -> (forall a, keeps_bot (k a)) -> keeps_bot (bind m k).
Proof.
  intros Hm Hk s. unfold bind. specialize (Hm s).
  destruct (m s) as [[a | e |] s']; simpl in *; try assumption.
  now rewrite Hk.
Qed.

Lemma keeps_bot_try_catch {A} (m : M A) (h : Js.Value -> M A) :
  keeps_bot m -> (forall e, keeps_bot (h e)) -> keeps_bot (try_catch m h).
Proof.
  intros Hm Hh s. unfold try_catch. specialize (Hm s).
  destruct (m s) as [[a | e |] s']; simpl in *; try assumption.
  now rewrite Hh.
Qed.

Lemma keeps_bot_console_log (t : string) (a : list Js.Value) :
  keeps_bot (console_log t a).
Proof. intros s. reflexivity. Qed.

Lemma keeps_bot_console_error (t : string) (a : list Js.Value) :
  keeps_bot (console_error t a).
Proof. intros s. reflexivity. Qed.

Lemma keeps_bot_process_exit {A} (code : Z) : keeps_bot (@process_exit A code).
Proof. intros s. reflexivity. Qed.

Lemma keeps_bot_await (c : Call) (o : list Call -> Outcome) :
  keeps_bot (await c o).
Proof. intros s. unfold await. destruct (o (calls s)); reflexivity. Qed.

Lemma keeps_bot_call (c : Call) (o : list Call -> SyncOutcome) :
  keeps_bot (call c o).
Proof. intros s. unfold call. destruct (o (calls s)); reflexivity. Qed.

Lemma keeps_bot_read (r : Js.Value + Js.Value) : keeps_bot (read r).
Proof. intros s. destruct r; reflexivity. Qed.

Lemma keeps_bot_get_calls : keeps_bot get_calls.
Proof. intros s. reflexivity. Qed.

Lemma keeps_bot_get_global_bot : keeps_bot get_global_bot.
Proof. intros s. reflexivity. Qed.

#[local] Hint Resolve keeps_bot_ret keeps_bot_throw keeps_bot_bind
  keeps_bot_try_catch keeps_bot_console_log keeps_bot_console_error
  keeps_bot_process_exit keeps_bot_await keeps_bot_call keeps_bot_read
  keeps_bot_get_calls keeps_bot_get_global_bot : frame.

Section BotFacts.

Variable w : World.

Lemma keeps_bot_start : keeps_bot (start w).
Proof. unfold start. auto 10 with frame. Qed.

Lemma keeps_bot_stop : keeps_bot (stop w).
Proof. unfold stop. auto 10 with frame. Qed.

Lemma keeps_bot_signal_handler (sig : Sig) : keeps_bot (signal_handler w sig).
Proof.
  pose proof keeps_bot_stop.
  destruct sig; unfold signal_handler, on_SIGINT, on_SIGTERM;
    repeat (apply keeps_bot_bind; [auto with frame | intros]);
    try destruct a0; auto with frame.
Qed.

Lemma keeps_bot_run_listeners
  (ls : list (string * (Js.Value -> M unit))) (name : string) (p : Js.Value) :
  Forall (fun l => forall v, keeps_bot (snd l v)) ls ->
  keeps_bot (run_listeners ls name p).
Proof.
  induction 1 as [|[n cb] ls Hcb Hls IH]; simpl.
  - auto with frame.
  - destruct (n =? name)%string; auto with frame.
Qed.

Lemma keeps_bot_emit (name : string) (p : Js.Value) : keeps_bot (emit w name p).
Proof.
  unfold emit. destruct (has_listener w name);
    [|destruct (name =? "error")%string; auto with frame].
  apply keeps_bot_run_listeners. unfold setupEventHandlers.
  repeat constructor; simpl; intros v;
    unfold on_qr, on_ready, on_authenticated, on_auth_failure, on_disconnected,
      on_message, on_group_join, on_group_leave;
    auto 12 with frame.
Qed.

Lemma keeps_bot_handle_event (ev : Event) : keeps_bot (handle_event w ev).
Proof.
  destruct ev; simpl.
  - apply keeps_bot_emit.
  - apply keeps_bot_signal_handler.
  - unfold on_listening. auto with frame.
  - auto with frame.
  - intros s. reflexivity.
Qed.

Lemma deliver_keeps_bot (ev : Event) (s : State) :
  global_bot (deliver w ev s) = global_bot s.
Proof.
  unfold deliver. destruct (status s); try reflexivity.
  pose proof (keeps_bot_handle_event ev s) as H.
  destruct (handle_event w ev s) as [[a | e |] s']; exact H.
Qed.

Lemma run_events_keep_bot (evs : list Event) :
  forall s, global_bot (run_events w evs s) = global_bot s.
Proof.
  induction evs as [|ev evs IH]; intros s; [reflexivity|].
  rewrite run_events_cons, IH. apply deliver_keeps_bot.
Qed.

(** Once the script has run, [global.bot] holds the bot. *)
Lemma boot_publishes_bot : global_bot (boot w) = Some TheBot.
Proof.
  unfold boot, run_state, main, bind. simpl.
  assert (H : keeps_bot
                (try_catch (start w) (fun error => console_error "" [error])))
    by (pose proof keeps_bot_start; auto with frame).
  apply H.
Qed.

Lemma bot_published (evs : list Event) :
  global_bot (run_events w evs (boot w)) = Some TheBot.
Proof. rewrite run_events_keep_bot. apply boot_publishes_bot. Qed.

(** X2. In every state the process reaches after the script, [global.bot]
    holds the bot: a signal handler never finds it unassigned there. *)
Lemma bot_handle_stays_published (evs : list Event) :
  global_bot (run_events w evs (boot w)) = Some TheBot /\
  global_bot init_state = None.
Proof. split; [apply bot_published | reflexivity]. Qed.

(** The signal handler when [global.bot] is set. *)
Lemma signal_with_bot (sig : Sig) (b : Bot) (s : State) :
  global_bot s = Some b ->
  signal_handler w sig s =
    (Halt,
     set_status (Exited 0)
       (snd ((console_log (newline ++ "🛑 Shutting down bot...") [] ;; stop w) s))).
Proof.
  intros Hb.
  destruct sig; unfold signal_handler, on_SIGINT, on_SIGTERM;
    unfold bind at 1 2 3; unfold console_log at 1, get_global_bot;
    simpl; rewrite Hb;
    unfold bind, console_log; simpl;
    rewrite !stop_run; reflexivity.
Qed.

(** The signal handler when [global.bot] is not set. *)
Lemma signal_without_bot (sig : Sig) (s : State) :
  global_bot s = None ->
  signal_handler w sig s = (Halt, set_status (Exited 0) (add_log shutting_down s)).
Proof.
  intros Hb.
  destruct sig; unfold signal_handler, on_SIGINT, on_SIGTERM; unfold_m;
    simpl; rewrite Hb; reflexivity.
Qed.

End BotFacts.

(** ** Termination signals *)

(** C4. In the running process, after the start-up script and any events,
    SIGINT and SIGTERM have the same handler; on either signal the handler
    logs, runs [stop] once (one [client.destroy()] call, one line from
    [stop]) and ends the process with status 0, also when the teardown
    rejects or throws. *)
Theorem signal_stops_once_then_exits_zero
  (w : World) (evs : list Event) (sig : Sig) :
  let s := run_events w evs (boot w) in
  status s = Running ->
  let s' := deliver w (Signal sig) s in
  signal_handler w SIGINT = signal_handler w SIGTERM /\
  s' = set_status (Exited 0) (run_state (stop w) (add_log shutting_down s)) /\
  status s' = Exited 0 /\
  calls s' = calls s ++ [CClientDestroy] /\
  log s' =
    log s
      ++ [shutting_down;
          match failure (client_destroy w (calls s)) with
          | None => stopped_gracefully
          | Some e => error_stopping e
          end].
Proof.
  intros s Hrun s'.
  assert (Hbot : global_bot s = Some TheBot) by apply bot_published.
  assert (Hs' : s' = set_status (Exited 0)
                       (run_state (stop w) (add_log shutting_down s))).
  { unfold s', deliver. rewrite Hrun. cbn [handle_event].
    rewrite (signal_with_bot w sig TheBot s Hbot). reflexivity. }
  split; [reflexivity|]. split; [exact Hs'|].
  rewrite Hs'. unfold run_state. rewrite stop_run. simpl.
  repeat split.
  rewrite <- app_assoc. simpl.
  destruct (failure (client_destroy w (calls s))); reflexivity.
Qed.

Example teardown_fails_exit_zero :
  deliver (with_destroy (Rejects boom) calm) (Signal SIGTERM)
    (boot (with_destroy (Rejects boom) calm))
  = mkState (Exited 0)
      [database_initialized; shutting_down; error_stopping boom]
      [CInitDatabase; CListen (Js.Num 3000); CClientInitialize;
       CStartScheduledTasks; CClientDestroy]
      (Some TheBot) [].
Proof. reflexivity. Qed.

Lemma signal_stops_once_then_exits_zero_witness :
  status (run_events (with_destroy (Rejects boom) calm)
            [ClientEvent "ready" Js.Undefined]
            (boot (with_destroy (Rejects boom) calm))) = Running /\
  status
    (deliver (with_destroy (Rejects boom) calm) (Signal SIGINT)
       (run_events (with_destroy (Rejects boom) calm)
          [ClientEvent "ready" Js.Undefined]
          (boot (with_destroy (Rejects boom) calm)))) = Exited 0.
Proof.
  split; [reflexivity|].
  apply (signal_stops_once_then_exits_zero (with_destroy (Rejects boom) calm)
           [ClientEvent "ready" Js.Undefined] SIGINT).
  reflexivity.
Defined.

(** C10. A termination signal handled while [global.bot] is not assigned:
    the handler logs, skips [stop] (no [client.destroy()] call, no line from
    [stop]) and ends the process with status 0. *)
Theorem signal_without_bot_skips_stop (w : World) (sig : Sig) (s : State) :
  status s = Running ->
  global_bot s = None ->
  let s' := deliver w (Signal sig) s in
  s' = set_status (Exited 0) (add_log shutting_down s) /\
  status s' = Exited 0 /\
  calls s' = calls s /\
  log s' = log s ++ [shutting_down].
Proof.
  intros Hrun Hbot s'.
  assert (Hs' : s' = set_status (Exited 0) (add_log shutting_down s)).
  { unfold s', deliver. rewrite Hrun. cbn [handle_event].
    rewrite (signal_without_bot w sig s Hbot). reflexivity. }
  rewrite Hs'. repeat split.
Qed.

Lemma signal_without_bot_skips_stop_witness :
  status init_state = Running /\
  global_bot init_state = None /\
  deliver calm (Signal SIGINT) init_state
  = mkState (Exited 0) [shutting_down] [] None [].
Proof.
  split; [reflexivity|]. split; [reflexivity|].
  apply (signal_without_bot_skips_stop calm SIGINT init_state); reflexivity.
Defined.

(** ** The status endpoint *)

Lemma get_root_response (req : Request) (res : Response) :
  get_root req res = End (res_json res root_body) /\
  statusCode (res_json res root_body) = statusCode res /\
  res_body (res_json res root_body) = Some root_body.
Proof. repeat split. Qed.

Ltac open_app :=
  unfold run_layers, setupExpress, express;
  cbn [fold_left add_layer stack final app run_stack layer_matches
         layer_handle].

Section Routing.

Variable w : World.
Variable req : Request.

Hypothesis helmet_hands_on : hands_on (helmet w) req.
Hypothesis cors_hands_on : hands_on (cors w) req.
Hypothesis json_hands_on : hands_on (express_json w) req.

(** The first three layers hand the request on, with status 200 still. *)
Lemma through_first_three :
  exists r,
    statusCode r = 200%Z /\
    run_layers (setupExpress w) req fresh_response
    = run_stack (finalhandler w)
        [Use (express_static w); UseAt "/dashboard" (dashboard w);
         Route GET "/" get_root]
        req r.
Proof.
  open_app.
  destruct (helmet_hands_on fresh_response) as [r1 [E1 S1]]. rewrite E1.
  destruct (cors_hands_on r1) as [r2 [E2 S2]]. rewrite E2.
  destruct (json_hands_on r2) as [r3 [E3 S3]]. rewrite E3.
  exists r3. split; [now rewrite S3, S2, S1 | reflexivity].
Qed.

Hypothesis static_hands_on : hands_on (express_static w) req.

Lemma through_first_four :
  exists r,
    statusCode r = 200%Z /\
    run_layers (setupExpress w) req fresh_response
    = run_stack (finalhandler w)
        [UseAt "/dashboard" (dashboard w); Route GET "/" get_root] req r.
Proof.
  destruct through_first_three as [r3 [S3 E]]. rewrite E.
  cbn [run_stack layer_matches layer_handle].
  destruct (static_hands_on r3) as [r4 [E4 S4]]. rewrite E4.
  exists r4. split; [now rewrite S4 | reflexivity].
Qed.

End Routing.



Example calm_get_root :
  run_layers (setupExpress calm) get_slash fresh_response
  = mkResponse 200 [("Content-Type", "application/json; charset=utf-8")%string]
      (Some root_body).
Proof. reflexivity. Qed.

Lemma hands_on_pass (req : Request) : hands_on pass req.
Proof. intros res. exists res. split; reflexivity. Qed.


(** * Further properties *)

(** ** start and stop, beyond the first failure *)

(** X4. A throw of [startScheduledTasks], the fourth call of [start], is
    fatal like the three steps before it: all four calls have been made, the
    error is logged with "Failed to start bot:" and the process exits with
    status 1. *)
Theorem scheduled_tasks_failure_is_fatal
  (w : World) (s : State) (e : Js.Value) :
  first_three_succeed w s ->
  sync_failure (tasks_outcome w s) = Some e ->
  run_result (start w) s = Halt /\
  status (run_state (start w) s) = Exited 1 /\
  made_by (start w) s = startup_steps w /\
  log (run_state (start w) s)
  = log s ++ [database_initialized; failed_to_start e].
Proof.
  intros [Hdb [Hl Hc]] Ht. unfold tasks_outcome in Ht.
  split; [|split; [|split]].
  - unfold run_result. rewrite start_run. cbv zeta.
    now rewrite Hdb, Hl, Hc, Ht.
  - unfold run_state. rewrite start_run. cbv zeta.
    now rewrite Hdb, Hl, Hc, Ht.
  - rewrite made_by_start. now rewrite Hdb, Hl, Hc.
  - unfold run_state. rewrite start_run. cbv zeta.
    rewrite Hdb, Hl, Hc, Ht. simpl. now rewrite <- app_assoc.
Qed.

Lemma scheduled_tasks_failure_is_fatal_witness :
  first_three_succeed (with_tasks (Raises cron_error) calm) init_state /\
  sync_failure (tasks_outcome (with_tasks (Raises cron_error) calm) init_state)
  = Some cron_error /\
  status (run_state (start (with_tasks (Raises cron_error) calm)) init_state)
  = Exited 1.
Proof.
  split; [repeat split|]. split; [reflexivity|].
  apply (scheduled_tasks_failure_is_fatal
           (with_tasks (Raises cron_error) calm) init_state cron_error).
  - repeat split.
  - reflexivity.
Defined.

Example tasks_throw :
  run_state (start (with_tasks (Raises cron_error) calm)) init_state
  = mkState (Exited 1) [database_initialized; failed_to_start cron_error]
      [CInitDatabase; CListen (Js.Num 3000); CClientInitialize;
       CStartScheduledTasks]
      None [].
Proof. reflexivity. Qed.

(** X5. [start] has two ways to end.  It returns normally exactly when all
    four calls succeed, and then it has logged only "Database initialized"
    and left the process running as it was; in every other case it ends the
    process with status 1. *)
Theorem start_completes_iff_all_succeed (w : World) (s : State) :
  (run_result (start w) s = Val tt <->
   first_three_succeed w s /\ sync_failure (tasks_outcome w s) = None) /\
  (run_result (start w) s = Val tt ->
   status (run_state (start w) s) = status s /\
   log (run_state (start w) s) = log s ++ [database_initialized] /\
   made_by (start w) s = startup_steps w) /\
  (run_result (start w) s <> Val tt ->
   run_result (start w) s = Halt /\
   status (run_state (start w) s) = Exited 1).
Proof.
  unfold first_three_succeed, tasks_outcome, run_result, run_state.
  rewrite made_by_start, start_run. cbv zeta.
  destruct (failure (initDatabase w (calls s))) eqn:Hdb;
    [|destruct (sync_failure (app_listen w _ _)) eqn:Hl;
      [|destruct (failure (client_initialize w _)) eqn:Hc;
        [|destruct (sync_failure (startScheduledTasks w _)) eqn:Ht]]];
    simpl; (split; [split; intros Hx | split; intros Hx]);
    try discriminate Hx;
    try (decompose [and] Hx; discriminate);
    try (split; reflexivity);
    try (exfalso; apply Hx; reflexivity).
  - repeat split.
  - repeat split.
Qed.

(** When every step succeeds, [start] adds its four calls and returns. *)
Lemma start_all_good (w : World) (s : State) :
  startup_always_succeeds w ->
  run_result (start w) s = Val tt /\
  calls (run_state (start w) s) = calls s ++ startup_steps w.
Proof.
  intros [Hdb [Hl [Hc Ht]]]. unfold run_result, run_state.
  rewrite start_run. cbv zeta.
  rewrite Hdb, Hl, Hc, Ht. simpl. split; [reflexivity|].
  now rewrite calls_four.
Qed.

(** X6. [start] is not guarded against a second call: started twice with
    collaborators that succeed, it initialises the database, listens on the
    port, initialises the client and starts the tasks twice over. *)
Theorem start_is_not_guarded (w : World) (s : State) :
  startup_always_succeeds w ->
  run_result (start w ;; start w) s = Val tt /\
  made_by (start w ;; start w) s = startup_steps w ++ startup_steps w.
Proof.
  intros Hw.
  destruct (start_all_good w s Hw) as [Hr1 Hc1].
  unfold run_result, run_state in Hr1, Hc1.
  unfold made_by, run_result, run_state, bind.
  destruct (start w s) as [r1 s1] eqn:E1. simpl in Hr1, Hc1. subst r1.
  destruct (start_all_good w s1 Hw) as [Hr2 Hc2].
  unfold run_result, run_state in Hr2, Hc2.
  split; [exact Hr2|].
  rewrite Hc2, Hc1, <- app_assoc. apply skipn_length_app.
Qed.

Lemma calm_always_succeeds : startup_always_succeeds calm.
Proof. repeat split. Qed.

Lemma start_is_not_guarded_witness :
  startup_always_succeeds calm /\
  made_by (start calm ;; start calm) init_state
  = startup_steps calm ++ startup_steps calm.
Proof.
  split; [exact calm_always_succeeds|].
  apply (start_is_not_guarded calm init_state calm_always_succeeds).
Defined.

(** X7. [stop] is not guarded either: every call of it calls
    [client.destroy()] again, whether the first teardown worked or not, and
    logs one line of its own each time. *)
Theorem stop_is_not_guarded (w : World) (s : State) :
  run_result (stop w ;; stop w) s = Val tt /\
  made_by (stop w ;; stop w) s = [CClientDestroy; CClientDestroy] /\
  length (log (run_state (stop w ;; stop w) s)) = (length (log s) + 2)%nat /\
  status (run_state (stop w ;; stop w) s) = status s.
Proof.
  unfold made_by, run_result, run_state, bind.
  rewrite stop_run, stop_run. simpl.
  rewrite calls_two, skipn_length_app, !length_app. simpl.
  repeat split. lia.
Qed.

(** ** Events nobody waits for, and callbacks that cannot fail *)

Lemma run_listeners_unbound
  (ls : list (string * (Js.Value -> M unit))) (name : string) (p : Js.Value) :
  ~ In name (map fst ls) -> run_listeners ls name p = ret tt.
Proof.
  induction ls as [|[n cb] ls IH]; simpl; intros Hn; [reflexivity|].
  destruct (String.eqb_spec n name) as [Heq | Hne].
  - exfalso. apply Hn. now left.
  - apply IH. intros Hin. apply Hn. now right.
Qed.

Lemma has_listener_bound (w : World) (name : string) :
  has_listener w name = true <-> In name (bound_events w).
Proof.
  unfold has_listener, bound_events. rewrite existsb_exists, in_map_iff.
  split; intros [l [H1 H2]].
  - apply String.eqb_eq in H2. now exists l.
  - exists l. split; [exact H2 | now apply String.eqb_eq].
Qed.

Lemma has_listener_unbound (w : World) (name : string) :
  ~ In name (bound_events w) -> has_listener w name = false.
Proof.
  intros Hn. destruct (has_listener w name) eqn:H; [|reflexivity].
  exfalso. apply Hn. now apply has_listener_bound.
Qed.

(** X8. An event of the session client that [setupEventHandlers] binds no
    callback to (any name other than the eight) changes nothing: no log
    line, no call, the process keeps running.  The one exception is 'error',
    which [emit] throws when nobody listens: the file binds no 'error'
    listener, so the exception is uncaught (an error payload as it is), with
    nothing logged. *)
Theorem unbound_event_is_ignored
  (w : World) (name : string) (p : Js.Value) (s : State) :
  ~ In name (bound_events w) ->
  status s = Running ->
  (name <> "error"%string -> deliver w (ClientEvent name p) s = s) /\
  (name = "error"%string ->
   deliver w (ClientEvent name p) s
   = set_status (Uncaught (unhandled_error p)) s /\
   forall n m, p = Js.Error n m -> unhandled_error p = p).
Proof.
  intros Hn Hrun. unfold deliver. rewrite Hrun. cbn [handle_event].
  unfold emit. rewrite (has_listener_unbound w name Hn).
  split; intros Hname.
  - apply String.eqb_neq in Hname. rewrite Hname. reflexivity.
  - subst name. split; [reflexivity|].
    intros n m Hp. subst p. reflexivity.
Qed.

Lemma message_create_is_unbound : ~ In "message_create"%string (bound_events calm).
Proof.
  unfold bound_events. simpl.
  intros H. repeat (destruct H as [H | H]; [discriminate H|]). exact H.
Qed.

Lemma unbound_event_is_ignored_witness :
  ~ In "message_create"%string (bound_events calm) /\
  status init_state = Running /\
  deliver calm (ClientEvent "message_create" (Js.Str "hi")) init_state
  = init_state.
Proof.
  split; [exact message_create_is_unbound|]. split; [reflexivity|].
  apply (unbound_event_is_ignored calm "message_create" (Js.Str "hi")
           init_state message_create_is_unbound eq_refl).
  discriminate.
Defined.

Example error_event_is_uncaught :
  deliver calm (ClientEvent "error" boom) (boot calm)
  = set_status (Uncaught boom) (boot calm).
Proof. reflexivity. Qed.

Lemma quiet_ret : quiet (ret tt).
Proof. intros s. split; reflexivity. Qed.

Lemma quiet_bind (m k : M unit) : quiet m -> quiet k -> quiet (m ;; k).
Proof.
  intros Hm Hk s. unfold bind. destruct (Hm s) as [Hr Hs].
  destruct (m s) as [r s1]. simpl in Hr, Hs. subst r.
  destruct (Hk s1) as [Hr1 Hs1]. split; [exact Hr1|].
  now rewrite Hs1.
Qed.

Lemma quiet_run_listeners
  (ls : list (string * (Js.Value -> M unit))) (name : string) (p : Js.Value) :
  (forall n cb, In (n, cb) ls -> n = name -> quiet (cb p)) ->
  quiet (run_listeners ls name p).
Proof.
  induction ls as [|[n cb] ls IH]; simpl; intros H; [exact quiet_ret|].
  assert (Hrest : quiet (run_listeners ls name p))
    by (apply IH; intros n' cb' Hin; apply H; now right).
  destruct (String.eqb_spec n name) as [Heq | Hne]; [|exact Hrest].
  apply quiet_bind; [|exact Hrest].
  apply (H n cb); [now left | exact Heq].
Qed.

Section QuietCallbacks.

Variable w : World.

Lemma quiet_on_authenticated (p : Js.Value) : quiet (on_authenticated p).
Proof. intros s. split; reflexivity. Qed.

Lemma quiet_on_auth_failure (p : Js.Value) : quiet (on_auth_failure p).
Proof. intros s. split; reflexivity. Qed.

Lemma quiet_on_disconnected (p : Js.Value) : quiet (on_disconnected p).
Proof. intros s. split; reflexivity. Qed.

Lemma quiet_on_message (p : Js.Value) : quiet (on_message w p).
Proof.
  intros s. unfold on_message. unfold_m.
  destruct (handleMessage w (calls s) p); split; reflexivity.
Qed.

Lemma quiet_on_group_join (p : Js.Value) : quiet (on_group_join w p).
Proof.
  intros s. unfold on_group_join. unfold_m.
  destruct (handleNewMember w (calls s) p); split; reflexivity.
Qed.

Lemma quiet_on_group_leave (p : Js.Value) : quiet (on_group_leave w p).
Proof.
  intros s. unfold on_group_leave. unfold_m.
  destruct (handleMemberLeave w (calls s) p); split; reflexivity.
Qed.

Lemma quiet_emit (name : string) (p : Js.Value) :
  name <> "qr"%string -> name <> "ready"%string -> name <> "error"%string ->
  quiet (emit w name p).
Proof.
  intros Hqr Hready Herror. unfold emit.
  destruct (has_listener w name);
    [|apply String.eqb_neq in Herror; rewrite Herror; exact quiet_ret].
  apply quiet_run_listeners.
  unfold setupEventHandlers. intros n cb Hin Hn.
  simpl in Hin.
  repeat (destruct Hin as [Hin | Hin];
          [injection Hin as Hn' Hcb; subst n cb;
           first [ now (exfalso; apply Hqr)
                 | now (exfalso; apply Hready)
                 | apply quiet_on_authenticated
                 | apply quiet_on_auth_failure
                 | apply quiet_on_disconnected
                 | apply quiet_on_message
                 | apply quiet_on_group_join
                 | apply quiet_on_group_leave ]
          |]).
  contradiction.
Qed.

End QuietCallbacks.

(** X9. Of all the events of the session client, only 'qr', 'ready' and
    'error' can let an exception escape: 'qr' and 'ready' through their
    callbacks, 'error' because no listener is bound to it.  For every other
    event name, bound or not, and every payload, [emit] returns normally and
    the process is still running afterwards, whatever the handlers do. *)
Theorem only_qr_and_ready_can_throw
  (w : World) (name : string) (p : Js.Value) (s : State) :
  name <> "qr"%string ->
  name <> "ready"%string ->
  name <> "error"%string ->
  status s = Running ->
  run_result (emit w name p) s = Val tt /\
  status (deliver w (ClientEvent name p) s) = Running.
Proof.
  intros Hqr Hready Herror Hrun.
  destruct (quiet_emit w name p Hqr Hready Herror s) as [Hr Hs].
  split; [exact Hr|].
  unfold deliver. rewrite Hrun. cbn [handle_event].
  destruct (emit w name p s) as [r s1]. simpl in Hr, Hs. subst r.
  now rewrite Hs.
Qed.

Lemma only_qr_and_ready_can_throw_witness :
  "group_leave"%string <> "qr"%string /\
  "group_leave"%string <> "ready"%string /\
  "group_leave"%string <> "error"%string /\
  status init_state = Running /\
  status
    (deliver (with_message_handler picky calm)
       (ClientEvent "group_leave" Js.Null) init_state) = Running.
Proof.
  split; [discriminate|]. split; [discriminate|]. split; [discriminate|].
  split; [reflexivity|].
  apply (only_qr_and_ready_can_throw (with_message_handler picky calm)
           "group_leave" Js.Null init_state);
    first [discriminate | reflexivity].
Defined.

(** ** How the process ends *)

Create HintDb alive.

Lemma keeps_status_ret {A} (a : A) : keeps_status (ret a).
Proof. intros s. reflexivity. Qed.

Lemma keeps_status_bind {A B} (m : M A) (k : A -> M B) :
  keeps_status m -> (forall a, keeps_status (k a)) -> keeps_status (bind m k).
Proof.
  intros Hm Hk s. unfold bind. specialize (Hm s).
  destruct (m s) as [[a | e |] s']; simpl in *; try assumption.
  now rewrite Hk.
Qed.

Lemma keeps_status_try_catch {A} (m : M A) (h : Js.Value -> M A) :
  keeps_status m -> (forall e, keeps_status (h e)) ->
  keeps_status (try_catch m h).
Proof.
  intros Hm Hh s. unfold try_catch. specialize (Hm s).
  destruct (m s) as [[a | e |] s']; simpl in *; try assumption.
  now rewrite Hh.
Qed.

Lemma keeps_status_throw {A} (e : Js.Value) : keeps_status (@throw A e).
Proof. intros s. reflexivity. Qed.

Lemma keeps_status_console_log (t : string) (a : list Js.Value) :
  keeps_status (console_log t a).
Proof. intros s. reflexivity. Qed.

Lemma keeps_status_console_error (t : string) (a : list Js.Value) :
  keeps_status (console_error t a).
Proof. intros s. reflexivity. Qed.

Lemma keeps_status_await (c : Call) (o : list Call -> Outcome) :
  keeps_status (await c o).
Proof. intros s. unfold await. destruct (o (calls s)); reflexivity. Qed.

Lemma keeps_status_call (c : Call) (o : list Call -> SyncOutcome) :
  keeps_status (call c o).
Proof. intros s. unfold call. destruct (o (calls s)); reflexivity. Qed.

Lemma keeps_status_read (r : Js.Value + Js.Value) : keeps_status (read r).
Proof. intros s. destruct r; reflexivity. Qed.

Lemma keeps_status_get_calls : keeps_status get_calls.
Proof. intros s. reflexivity. Qed.

#[local] Hint Resolve keeps_status_ret keeps_status_throw keeps_status_bind
  keeps_status_try_catch
  keeps_status_console_log keeps_status_console_error keeps_status_await
  keeps_status_call keeps_status_read keeps_status_get_calls : alive.

Section EndFacts.

Variable w : World.

Lemma keeps_status_run_listeners
  (ls : list (string * (Js.Value -> M unit))) (name : string) (p : Js.Value) :
  Forall (fun l => forall v, keeps_status (snd l v)) ls ->
  keeps_status (run_listeners ls name p).
Proof.
  induction 1 as [|[n cb] ls Hcb Hls IH]; simpl.
  - auto with alive.
  - destruct (n =? name)%string; auto with alive.
Qed.

Lemma keeps_status_emit (name : string) (p : Js.Value) :
  keeps_status (emit w name p).
Proof.
  unfold emit. destruct (has_listener w name);
    [|destruct (name =? "error")%string; auto with alive].
  apply keeps_status_run_listeners. unfold setupEventHandlers.
  repeat constructor; simpl; intros v;
    unfold on_qr, on_ready, on_authenticated, on_auth_failure, on_disconnected,
      on_message, on_group_join, on_group_leave;
    auto 12 with alive.
Qed.

(** A signal ends the running process with status 0, bot or no bot. *)
Lemma signal_exits_zero (sig : Sig) (s : State) :
  status (snd (signal_handler w sig s)) = Exited 0 /\
  fst (signal_handler w sig s) = Halt.
Proof.
  destruct (global_bot s) as [b|] eqn:Hb.
  - rewrite (signal_with_bot w sig b s Hb). split; reflexivity.
  - rewrite (signal_without_bot w sig s Hb). split; reflexivity.
Qed.

(** The only event that makes a running process exit is a signal. *)
Lemma deliver_exits (ev : Event) (s : State) (c : Z) :
  status s = Running ->
  status (deliver w ev s) = Exited c ->
  c = 0%Z /\ exists sig, ev = Signal sig.
Proof.
  intros Hrun. unfold deliver. rewrite Hrun.
  destruct ev as [name p | sig | | e | req]; cbn [handle_event].
  - pose proof (keeps_status_emit name p s) as Hk.
    destruct (emit w name p s) as [[[] | e |] s1]; simpl in *;
      rewrite ?Hk, ?Hrun; discriminate.
  - destruct (signal_exits_zero sig s) as [Hst Hr].
    destruct (signal_handler w sig s) as [r s1]. simpl in Hst, Hr. subst r.
    rewrite Hst. intros H. injection H as <-. split; [reflexivity|].
    now exists sig.
  - unfold on_listening. unfold_m. simpl. rewrite Hrun. discriminate.
  - unfold throw. simpl. discriminate.
  - unfold serve. simpl. rewrite Hrun. discriminate.
Qed.

Lemma deliver_ended (ev : Event) (s : State) : ended s -> deliver w ev s = s.
Proof.
  unfold ended, deliver. intros H.
  destruct (status s); [contradiction | reflexivity | reflexivity].
Qed.

Lemma run_events_ended (evs : list Event) (s : State) :
  ended s -> run_events w evs s = s.
Proof.
  intros H. induction evs as [|ev evs IH]; [reflexivity|].
  now rewrite run_events_cons, deliver_ended.
Qed.

Lemma run_events_exit (evs : list Event) :
  forall s c,
    status s = Running ->
    status (run_events w evs s) = Exited c ->
    c = 0%Z /\ exists sig, In (Signal sig) evs.
Proof.
  induction evs as [|ev evs IH]; intros s c Hrun Hex.
  - simpl in Hex. rewrite Hrun in Hex. discriminate.
  - rewrite run_events_cons in Hex.
    destruct (status (deliver w ev s)) as [| c' | e] eqn:Hd.
    + destruct (IH _ c Hd Hex) as [Hc [sig Hin]].
      split; [exact Hc|]. exists sig. now right.
    + rewrite run_events_ended in Hex
        by (unfold ended; rewrite Hd; discriminate).
      rewrite Hd in Hex. injection Hex as <-.
      destruct (deliver_exits ev s c' Hrun Hd) as [Hc [sig Hev]].
      split; [exact Hc|]. exists sig. left. now symmetry.
    + rewrite run_events_ended in Hex
        by (unfold ended; rewrite Hd; discriminate).
      rewrite Hd in Hex. discriminate.
Qed.

(** After the script the process is running or has exited with status 1. *)
Lemma boot_status : status (boot w) = Running \/ status (boot w) = Exited 1.
Proof.
  unfold boot, run_state, main, bind. simpl.
  unfold try_catch. rewrite start_run. cbv zeta.
  destruct (failure _); [now right|].
  destruct (sync_failure _); [now right|].
  destruct (failure _); [now right|].
  destruct (sync_failure _); [now right | now left].
Qed.

End EndFacts.

(** X10. The process leaves through [process.exit] in two ways only.  In
    whatever state the script and any later events end, an exit status is 1
    or 0: it is 1 only when start-up itself failed (and no event was handled
    after that), and 0 only when a termination signal was among the
    events. *)
Theorem exit_status_is_zero_or_one
  (w : World) (evs : list Event) (c : Z) :
  status (run_events w evs (boot w)) = Exited c ->
  (c = 1%Z /\ status (boot w) = Exited 1 /\
   run_events w evs (boot w) = boot w) \/
  (c = 0%Z /\ status (boot w) = Running /\ exists sig, In (Signal sig) evs).
Proof.
  intros Hex. destruct (boot_status w) as [Hrun | Hone].
  - right. destruct (run_events_exit w evs (boot w) c Hrun Hex) as [Hc Hsig].
    auto.
  - left.
    assert (Hend : ended (boot w)) by (unfold ended; rewrite Hone; discriminate).
    rewrite run_events_ended in Hex by exact Hend.
    rewrite Hone in Hex. injection Hex as <-.
    split; [reflexivity|]. split; [exact Hone|].
    now apply run_events_ended.
Qed.

Lemma exit_status_is_zero_or_one_witness :
  status
    (run_events calm
       [ClientEvent "ready" Js.Undefined; Signal SIGTERM;
        ClientEvent "message" (Js.Str "late")]
       (boot calm)) = Exited 0 /\
  exists sig,
    In (Signal sig)
      [ClientEvent "ready" Js.Undefined; Signal SIGTERM;
       ClientEvent "message" (Js.Str "late")].
Proof.
  split; [reflexivity|].
  destruct (exit_status_is_zero_or_one calm
              [ClientEvent "ready" Js.Undefined; Signal SIGTERM;
               ClientEvent "message" (Js.Str "late")] 0 eq_refl)
    as [[Hc _] | [_ [_ Hsig]]].
  - discriminate Hc.
  - exact Hsig.
Defined.

(** ** What the callbacks log *)

(** X11. The name the ready callback prints is "GroupManager" when [BOT_NAME]
    is absent or empty and the configured name otherwise; the line with it
    is the second line of every 'ready', also when the connected account
    cannot be read afterwards. *)
Theorem bot_name_default_or_configured (w : World) :
  (env w "BOT_NAME" = None -> bot_name w = Js.Str "GroupManager") /\
  (env w "BOT_NAME" = Some ""%string -> bot_name w = Js.Str "GroupManager") /\
  (forall v, env w "BOT_NAME" = Some v -> v <> ""%string ->
             bot_name w = Js.Str v) /\
  (forall p s, exists rest,
      log (run_state (emit w "ready" p) s)
      = log s
          ++ [mkLog Info "✅ WhatsApp Group Manager Bot is ready!" [];
              bot_name_line w]
          ++ rest).
Proof.
  split; [|split; [|split]].
  - intros H. unfold bot_name, process_env. now rewrite H.
  - intros H. unfold bot_name, process_env. now rewrite H.
  - intros v H Hv. unfold bot_name, process_env, Js.or. rewrite H. simpl.
    destruct (String.eqb_spec v ""); [contradiction | reflexivity].
  - intros p s. unfold run_state. find_listener.
    unfold on_ready, bot_name_line, bot_name. unfold_m. simpl.
    destruct (Js.get (client_info w (calls s)) "wid") as [wid | e]; simpl.
    + destruct (Js.get wid "user") as [user | e]; simpl.
      * eexists. rewrite <- !app_assoc. simpl. reflexivity.
      * exists []. rewrite <- !app_assoc. reflexivity.
    + exists []. rewrite <- !app_assoc. reflexivity.
Qed.

Example configured_bot_name :
  log (run_state (emit (with_env (only "BOT_NAME" "Warden") calm) "ready"
                    Js.Undefined) init_state)
  = [ mkLog Info "✅ WhatsApp Group Manager Bot is ready!" [];
      mkLog Info "🤖 Bot Name: Warden" [];
      mkLog Info "📱 Connected as: 15551234567" [] ].
Proof. reflexivity. Qed.

Lemma log_grows (l : list LogEntry) (x : LogEntry) : l ++ [x] <> l.
Proof.
  intros H. apply (f_equal (@length LogEntry)) in H.
  rewrite length_app in H. simpl in H. lia.
Qed.

(** X12. The inbound callbacks log failures only: an event whose handler
    resolves adds the handler call and nothing else, and the log is left as
    it was exactly when the handler did not fail. *)
Theorem handled_event_logs_nothing
  (w : World) (ev : Inbound * Js.Value) (s : State) :
  status s = Running ->
  (failure (inbound_outcome w (calls s) ev) = None ->
   deliver w (inbound_event ev) s = add_call (inbound_call ev) s) /\
  (log (deliver w (inbound_event ev) s) = log s <->
   failure (inbound_outcome w (calls s) ev) = None).
Proof.
  intros Hrun. rewrite (deliver_inbound w ev s Hrun).
  destruct (failure (inbound_outcome w (calls s) ev)) as [e|]; simpl.
  - split; [discriminate|]. split; [|discriminate].
    intros H. exfalso. exact (log_grows _ _ H).
  - repeat split.
Qed.

Lemma handled_event_logs_nothing_witness :
  status init_state = Running /\
  deliver (with_message_handler picky calm)
    (inbound_event (Message, Js.Str "hello")) init_state
  = add_call (inbound_call (Message, Js.Str "hello")) init_state.
Proof.
  split; [reflexivity|].
  apply (handled_event_logs_nothing (with_message_handler picky calm)
           (Message, Js.Str "hello") init_state);
    reflexivity.
Defined.

(** ** Routing *)


(** X13. The static middleware is registered before the status route: when
    it answers a request (a file it finds under web/public, an index page
    for "/"), that answer is the response, and neither the dashboard router
    nor the status route is consulted. *)
Theorem static_answer_preempts_routes
  (w : World) (req : Request) (page : Response -> Response) :
  hands_on (helmet w) req ->
  hands_on (cors w) req ->
  hands_on (express_json w) req ->
  (forall res, express_static w req res = End (page res)) ->
  exists r,
    statusCode r = 200%Z /\
    run_layers (setupExpress w) req fresh_response = page r.
Proof.
  intros H1 H2 H3 Hpage.
  destruct (through_first_three w req H1 H2 H3) as [r [S E]].
  exists r. split; [exact S|]. rewrite E. simpl. now rewrite Hpage.
Qed.

Example index_page_shadows_status :
  res_body
    (run_layers (setupExpress (with_static serves_index calm)) get_slash
       fresh_response)
  = Some (Js.Str "<html></html>").
Proof. reflexivity. Qed.

Lemma static_answer_preempts_routes_witness :
  hands_on (helmet (with_static serves_index calm)) get_slash /\
  (forall res,
      express_static (with_static serves_index calm) get_slash res
      = End (index_page res)) /\
  exists r,
    statusCode r = 200%Z /\
    run_layers (setupExpress (with_static serves_index calm)) get_slash
      fresh_response = index_page r.
Proof.
  split; [apply hands_on_pass|]. split; [reflexivity|].
  apply (static_answer_preempts_routes (with_static serves_index calm)
           get_slash index_page);
    first [apply hands_on_pass | reflexivity].
Defined.

(** X14. A request for "/dashboard" or a path below it, handed on by the
    four global middlewares, is answered by the dashboard router when the
    router answers: the status route plays no part. *)
Theorem dashboard_answers_its_paths
  (w : World) (req : Request) (answer : Response -> Response) :
  mounted_at "/dashboard" (req_path req) = true ->
  hands_on (helmet w) req ->
  hands_on (cors w) req ->
  hands_on (express_json w) req ->
  hands_on (express_static w) req ->
  (forall res, dashboard w req res = End (answer res)) ->
  exists r,
    statusCode r = 200%Z /\
    run_layers (setupExpress w) req fresh_response = answer r.
Proof.
  intros Hm H1 H2 H3 H4 Hans.
  destruct (through_first_four w req H1 H2 H3 H4) as [r [S E]].
  exists r. split; [exact S|]. rewrite E.
  cbn [run_stack layer_matches layer_handle]. now rewrite Hm, Hans.
Qed.

Lemma dashboard_answers_its_paths_witness :
  mounted_at "/dashboard" (req_path get_dashboard_stats) = true /\
  (forall res,
      dashboard (with_dashboard serves_panel calm) get_dashboard_stats res
      = End (panel res)) /\
  exists r,
    statusCode r = 200%Z /\
    run_layers (setupExpress (with_dashboard serves_panel calm))
      get_dashboard_stats fresh_response = panel r.
Proof.
  split; [reflexivity|]. split; [reflexivity|].
  apply (dashboard_answers_its_paths (with_dashboard serves_panel calm)
           get_dashboard_stats panel);
    first [apply hands_on_pass | reflexivity].
Defined.

(** X15. The application has one route of its own.  A request that the
    global middlewares hand on, whose path is not under "/dashboard" and
    which is not a GET (or HEAD) for "/", falls through every layer: it is
    left to Express's final handler, called with no error, and neither the
    dashboard router nor the status route is consulted for it. *)
Theorem unrouted_request_is_not_found (w : World) (req : Request) :
  mounted_at "/dashboard" (req_path req) = false ->
  asks_root req = false ->
  hands_on (helmet w) req ->
  hands_on (cors w) req ->
  hands_on (express_json w) req ->
  hands_on (express_static w) req ->
  exists r,
    statusCode r = 200%Z /\
    run_layers (setupExpress w) req fresh_response = finalhandler w None req r.
Proof.
  intros Hm Hroot H1 H2 H3 H4.
  destruct (through_first_four w req H1 H2 H3 H4) as [r [S E]].
  exists r. split; [exact S|]. rewrite E.
  cbn [run_stack layer_matches layer_handle].
  unfold asks_root in Hroot. now rewrite Hm, Hroot.
Qed.

Lemma unrouted_request_is_not_found_witness :
  mounted_at "/dashboard" (req_path post_slash) = false /\
  asks_root post_slash = false /\
  exists r,
    statusCode r = 200%Z /\
    run_layers (setupExpress (with_dashboard serves_panel calm)) post_slash
      fresh_response
    = finalhandler (with_dashboard serves_panel calm) None post_slash r.
Proof.
  split; [reflexivity|]. split; [reflexivity|].
  apply (unrouted_request_is_not_found (with_dashboard serves_panel calm)
           post_slash);
    first [apply hands_on_pass | reflexivity].
Defined.

(** Mount paths are matched without regard to case. *)
Example dashboard_in_capitals :
  mounted_at "/dashboard" "/Dashboard/stats" = true /\
  mounted_at "/dashboard" "/dashboards" = false.
Proof. split; reflexivity. Qed.

(** ** A port that cannot be bound *)



Example listen_callback_then_ready :
  run_events calm [Listening; ClientEvent "ready" Js.Undefined] (boot calm)
  = mkState Running
      [ database_initialized;
        mkLog Info "🌐 Web dashboard running on http://localhost:3000" [];
        mkLog Info "📊 Admin dashboard: http://localhost:3000/dashboard" [];
        mkLog Info "✅ WhatsApp Group Manager Bot is ready!" [];
        mkLog Info "🤖 Bot Name: GroupManager" [];
        mkLog Info "📱 Connected as: 15551234567" [] ]
      [CInitDatabase; CListen (Js.Num 3000); CClientInitialize;
       CStartScheduledTasks]
      (Some TheBot) [].
Proof. reflexivity. Qed.

Example printing_numbers_and_errors :
  Js.to_string (Js.Num 3000) = "3000"%string /\
  Js.to_string (Js.Num (-42)) = "-42"%string /\
  Js.to_string (Js.Num (10 ^ 21)) = "1e+21"%string /\
  Js.to_string (Js.Num (15 * 10 ^ 20)) = "1.5e+21"%string /\
  Js.to_string (Js.Error "Error" "") = "Error"%string /\
  Js.to_string (Js.Error "TypeError" "x is not a function")
  = "TypeError: x is not a function"%string.
Proof. repeat split. Qed.
